(** * reddit_scraper: the comment-tree builder and its statistics

    A shallow embedding of [reddit_scraper/scraper.py] (the tree builder
    [parse_comment], the top-level loop of [scrape_reddit_post] and
    [count_all]) and of [reddit_scraper/server.py] (the URL validator of
    [ScrapeRequest], [count_comments_recursive] and the [/scrape] handler),
    with the properties the design document states about them. *)

From Stdlib Require Import ZArith String Ascii List Lia Bool.
From stdpp Require Import base option list strings gmap fin_maps.
Import ListNotations.

#[local] Set Warnings "-register-all".
Open Scope string_scope.
Open Scope list_scope.

(** ** JSON values as Python sees them after [json.loads] *)

(** A decoded JSON document.  Objects keep their members as an association
    list (a Python dict keeps insertion order); [dict_lookup] takes the first
    binding of a key.  A float is the finite value [m * 2^e]. *)
Inductive json : Type :=
  | JNull
  | JBool (b : bool)
  | JInt (n : Z)
  | JFloat (m e : Z)
  | JStr (s : string)
  | JArr (items : list json)
  | JObj (fields : list (string * json)).

Fixpoint dict_lookup (key : string) (fields : list (string * json)) : option json :=
  match fields with
  | [] => None
  | (k, v) :: rest => if String.eqb key k then Some v else dict_lookup key rest
  end.

(** Python truthiness ([bool(v)]) of a decoded value. *)
Definition truthy (v : json) : bool :=
  match v with
  | JNull => false
  | JBool b => b
  | JInt n => negb (Z.eqb n 0)
  | JFloat m _ => negb (Z.eqb m 0)
  | JStr s => negb (String.eqb s "")
  | JArr items => match items with [] => false | _ => true end
  | JObj fields => match fields with [] => false | _ => true end
  end.

(** [isinstance(v, dict)] *)
Definition is_dict (v : json) : bool :=
  match v with JObj _ => true | _ => false end.

(** [v != 't1'] for a string literal on the right. *)
Definition str_ne (v : json) (lit : string) : bool :=
  match v with JStr s => negb (String.eqb s lit) | _ => true end.

(** ** Exceptions *)

Inductive exn : Type :=
  | KeyError
  | IndexError
  | TypeError
  | AttributeError
  | RecursionError
  | ValueError (msg : string).

Inductive result (A : Type) : Type :=
  | Ok (a : A)
  | Raise (e : exn).
Arguments Ok {A} a.
Arguments Raise {A} e.

#[global] Instance result_ret : MRet result := fun A a => Ok a.

#[global] Instance result_bind : MBind result := fun A B k m =>
  match m with
  | Ok a => k a
  | Raise e => Raise e
  end.

(** A [for] loop over a list whose body may raise: the accumulator is
    threaded from left to right and the first exception ends the loop. *)
Fixpoint for_each {A B : Type} (body : B -> A -> result B) (items : list A) (acc : B)
  : result B :=
  match items with
  | [] => Ok acc
  | x :: rest => acc' ← body acc x; for_each body rest acc'
  end.

(** ** Python operations on decoded values *)

(** [v[key]] with a string key: a dict gives the member or [KeyError]; a
    list or a string wants an integer index, the other values are not
    subscriptable -- all of these are [TypeError]. *)
Definition subscript (v : json) (key : string) : result json :=
  match v with
  | JObj fields =>
      match dict_lookup key fields with
      | Some x => Ok x
      | None => Raise KeyError
      end
  | _ => Raise TypeError
  end.

(** [v[i]] with a non-negative integer literal. *)
Definition subscript_int (v : json) (i : nat) : result json :=
  match v with
  | JArr items =>
      match nth_error items i with
      | Some x => Ok x
      | None => Raise IndexError
      end
  | JStr s =>
      match String.get i s with
      | Some c => Ok (JStr (String c EmptyString))
      | None => Raise IndexError
      end
  | JObj _ => Raise KeyError
  | _ => Raise TypeError
  end.

(** [d.get(key, default)] on a dict. *)
Definition get_default (fields : list (string * json)) (key : string) (default : json)
  : json :=
  match dict_lookup key fields with
  | Some x => x
  | None => default
  end.

(** [v.get(key, default)] on any value: only a dict has the method. *)
Definition dict_get (v : json) (key : string) (default : json) : result json :=
  match v with
  | JObj fields => Ok (get_default fields key default)
  | _ => Raise AttributeError
  end.

Fixpoint chars_of (s : string) : list json :=
  match s with
  | EmptyString => []
  | String c s' => JStr (String c EmptyString) :: chars_of s'
  end.

(** What [for x in v] iterates over: the items of a list, the keys of a
    dict, the characters of a string; the other values are not iterable. *)
Definition py_iter (v : json) : result (list json) :=
  match v with
  | JArr items => Ok items
  | JObj fields => Ok (map (fun kv => JStr (fst kv)) fields)
  | JStr s => Ok (chars_of s)
  | _ => Raise TypeError
  end.

(** Nesting depth of a decoded value. *)
Fixpoint json_depth (v : json) : nat :=
  match v with
  | JArr items => S (list_max (map json_depth items))
  | JObj fields => S (list_max (map (fun kv => json_depth (snd kv)) fields))
  | _ => 0
  end.

(** ** The data model of the scraper's output *)

(** The dict built for one comment.  The scalar members are whatever the
    payload held (or the default), so they stay decoded values. *)
Inductive CommentNode : Type :=
  MkComment {
    c_id : json;
    c_author : json;
    c_timestamp : json;
    c_score : json;
    c_text : json;
    c_replies : list CommentNode
  }.

Record Post : Type := MkPost {
  p_title : json;
  p_author : json;
  p_subreddit : json;
  p_timestamp : json;
  p_score : json;
  p_url : string;
  p_num_comments : json;
  p_selftext : json
}.

Record ScrapeResult : Type := MkResult {
  r_post : Post;
  r_comments : list CommentNode
}.

(** ** [parse_comment] (scraper.py) *)

Section Scraper.

(** Python's [str()] of a decoded value that is not text, as the f-string
    of the flair annotation renders it. *)
Variable str_of_nontext : json -> string.

Definition py_str (v : json) : string :=
  match v with
  | JStr s => s
  | _ => str_of_nontext v
  end.

(** [f"{author} ({flair})"] *)
Definition with_flair (author flair : json) : json :=
  JStr (py_str author +:+ " (" +:+ py_str flair +:+ ")").

(** The loop [for obj in entries: c = parse_comment(obj); if c: append(c)],
    which the source runs over [reply_children] inside [parse_comment] and
    over [comments_data_raw] at top level.  [self] is the recursive call; a
    built node is a dict of six members, hence truthy. *)
Definition build_forest (self : json -> result (option CommentNode))
    (entries : list json) : result (list CommentNode) :=
  for_each
    (fun replies reply_obj =>
       reply ← self reply_obj;
       match reply with
       | Some r => Ok (replies ++ [r])
       | None => Ok replies
       end)
    entries [].

(** The ['author'] member of the comment dict, after the flair annotation. *)
Definition comment_author (comment_data : list (string * json)) : json :=
  let author := get_default comment_data "author" (JStr "[deleted]") in
  let flair := get_default comment_data "author_flair_text" JNull in
  if truthy flair then with_flair author flair else author.

(** The entries the block under [# Parse replies recursively] loops over:
    those of [reply_children] when ['replies'] is there, truthy and a dict,
    none otherwise. *)
Definition reply_children (comment_data : list (string * json)) : result (list json) :=
  match dict_lookup "replies" comment_data with
  | Some raw_replies =>
      if truthy raw_replies then
        match raw_replies with
        | JObj replies_fields =>
            children ← dict_get (get_default replies_fields "data" (JObj []))
                         "children" (JArr []);
            py_iter children
        | _ => Ok []
        end
      else Ok []
  | None => Ok []
  end.

(** The comment dict once its ['replies'] list is filled. *)
Definition comment_dict (comment_data : list (string * json))
    (replies : list CommentNode) : CommentNode :=
  {| c_id := get_default comment_data "id" (JStr "");
     c_author := comment_author comment_data;
     c_timestamp := get_default comment_data "created_utc" (JInt 0);
     c_score := get_default comment_data "score" (JInt 0);
     c_text := get_default comment_data "body" (JStr "");
     c_replies := replies |}.

(** The body of [parse_comment], with the recursive call as [self].
    [comment_data.get] raises [AttributeError] unless the payload is a
    dict. *)
Definition parse_comment_body (self : json -> result (option CommentNode))
    (comment_obj : json) : result (option CommentNode) :=
  kind ← subscript comment_obj "kind";
  if str_ne kind "t1" then Ok None
  else
    comment_data ← subscript comment_obj "data";
    match comment_data with
    | JObj fields =>
        entries ← reply_children fields;
        replies ← build_forest self entries;
        Ok (Some (comment_dict fields replies))
    | _ => Raise AttributeError
    end.

(** The recursion, bounded by the depth of the call stack. *)
Fixpoint parse_comment_at (stack : nat) (comment_obj : json)
  : result (option CommentNode) :=
  match stack with
  | O => Raise RecursionError
  | S stack' => parse_comment_body (parse_comment_at stack') comment_obj
  end.

(** [parse_comment] with all the stack it needs: a payload of depth [d]
    never nests calls deeper than [d], so this stack is never exhausted (see
    [parse_comment_unfold] and [parse_comment_no_overflow]).  The
    interpreter's own recursion limit is left out. *)
Definition parse_comment (comment_obj : json) : result (option CommentNode) :=
  parse_comment_at (S (json_depth comment_obj)) comment_obj.

(** The dict literal [post_data] of [scrape_reddit_post]. *)
Definition build_post (url : string) (post_data_raw : json) : result Post :=
  match post_data_raw with
  | JObj fields =>
      Ok {| p_title := get_default fields "title" (JStr "Unknown");
            p_author := get_default fields "author" (JStr "Unknown");
            p_subreddit := get_default fields "subreddit" (JStr "Unknown");
            p_timestamp := get_default fields "created_utc" (JInt 0);
            p_score := get_default fields "score" (JInt 0);
            p_url := url;
            p_num_comments := get_default fields "num_comments" (JInt 0);
            p_selftext := get_default fields "selftext" (JStr "") |}
  | _ => Raise AttributeError
  end.

(** [scrape_reddit_post] from the decoded response [data] on; [url] is the
    normalised URL the response was fetched from. *)
Definition scrape_reddit_post (url : string) (data : json) : result ScrapeResult :=
  post_listing ← subscript_int data 0;
  post_children ← (d ← subscript post_listing "data"; subscript d "children");
  post_data_raw ← (first ← subscript_int post_children 0; subscript first "data");
  comments_listing ← subscript_int data 1;
  comments_data_raw ← (d ← subscript comments_listing "data"; subscript d "children");
  post_data ← build_post url post_data_raw;
  entries ← py_iter comments_data_raw;
  comments_list ← build_forest parse_comment entries;
  Ok {| r_post := post_data; r_comments := comments_list |}.

End Scraper.

(** ** [count_all] (scraper.py) *)

(** [count_all(comment.get('replies', []))] for one node; a built node
    always has the member. *)
Fixpoint count_replies (comment : CommentNode) : nat :=
  fold_left (fun total c => total + count_replies c) (c_replies comment)
            (length (c_replies comment)).

Definition count_all (comments : list CommentNode) : nat :=
  fold_left (fun total comment => total + count_replies comment) comments
            (length comments).

(** ** The design document's [buildForest] *)

Fixpoint try_map {A B : Type} (f : A -> result B) (items : list A) : result (list B) :=
  match items with
  | [] => Ok []
  | x :: rest => y ← f x; ys ← try_map f rest; Ok (y :: ys)
  end.

(** The non-null results of a list, in order. *)
Fixpoint non_null {A : Type} (results : list (option A)) : list A :=
  match results with
  | [] => []
  | Some a :: rest => a :: non_null rest
  | None :: rest => non_null rest
  end.

(** [buildNode] over each entry in source order, keeping only the non-null
    results, in order. *)
Definition build_forest_spec (build_node : json -> result (option CommentNode))
    (entries : list json) : result (list CommentNode) :=
  nodes ← try_map build_node entries; Ok (non_null nodes).

(** ** [count_all] over the objects themselves

    The lists and dicts [count_all] is handed are mutable objects; this
    section runs it on a store of such objects, so that what it leaves of them
    can be stated. *)

Definition loc : Type := positive.

(** A list of references, or a comment dict whose ['replies'] member, when
    the key is there, refers to a list. *)
Inductive pyobj : Type :=
  | PyList (items : list loc)
  | PyComment (id author timestamp score text : json) (replies : option loc).

(** A computation on the store; [None] is an exception, or no fuel left. *)
Definition Heap (A : Type) : Type := gmap loc pyobj -> option (A * gmap loc pyobj).

#[global] Instance heap_ret : MRet Heap := fun A a h => Some (a, h).

#[global] Instance heap_bind : MBind Heap := fun A B k m h =>
  match m h with
  | Some (a, h') => k a h'
  | None => None
  end.

Definition raise {A : Type} : Heap A := fun _ => None.

Definition read (l : loc) : Heap pyobj := fun h =>
  match h !! l with
  | Some o => Some (o, h)
  | None => None
  end.

(** A new object, at a location not in use. *)
Definition alloc (o : pyobj) : Heap loc := fun h =>
  let l := fresh (dom h) in Some (l, <[l := o]> h).

(** [len(x)]: the length of a list, the number of keys of a dict. *)
Definition py_len (x : loc) : Heap nat :=
  o ← read x;
  match o with
  | PyList items => mret (length items)
  | PyComment _ _ _ _ _ replies => mret (match replies with Some _ => 6 | None => 5 end)
  end.

(** [comment.get('replies', default)]: only a dict has [get]. *)
Definition get_replies (comment default : loc) : Heap loc :=
  o ← read comment;
  match o with
  | PyComment _ _ _ _ _ (Some replies) => mret replies
  | PyComment _ _ _ _ _ None => mret default
  | PyList _ => raise
  end.

(** [for x in xs: acc = body(x, acc)] from index [i] on, for at most [fuel]
    turns.  The iterator reads the list object again at every turn.  Over a
    dict the loop would bind the keys, texts on which the body's [get]
    raises. *)
Fixpoint for_list (fuel : nat) (body : loc -> nat -> Heap nat) (xs : loc) (i acc : nat)
  : Heap nat :=
  match fuel with
  | O => raise
  | S fuel' =>
      o ← read xs;
      match o with
      | PyList items =>
          match items !! i with
          | Some x => acc' ← body x acc; for_list fuel' body xs (S i) acc'
          | None => mret acc
          end
      | PyComment _ _ _ _ _ _ => raise
      end
  end.

(** [count_all(comments)] on the store; [fuel] bounds the nesting of the
    calls and the turns of each loop.  The default [[]] of the [get] is a new
    list at every turn. *)
Fixpoint count_all_in (fuel : nat) (comments : loc) : Heap nat :=
  match fuel with
  | O => raise
  | S fuel' =>
      total ← py_len comments;
      for_list fuel'
        (fun comment total =>
           default ← alloc (PyList []);
           replies ← get_replies comment default;
           n ← count_all_in fuel' replies;
           mret (total + n))
        comments 0 total
  end.

(** The store [h] holds the tree [c] at [l]. *)
Inductive node_at (h : gmap loc pyobj) : loc -> CommentNode -> Prop :=
  | node_at_intro l lr locs id author timestamp score text replies :
      h !! l = Some (PyComment id author timestamp score text (Some lr)) ->
      h !! lr = Some (PyList locs) ->
      Forall2 (node_at h) locs replies ->
      node_at h l (MkComment id author timestamp score text replies).

(** The store [h] holds the forest [comments] as the list object at [l]. *)
Definition forest_at (h : gmap loc pyobj) (l : loc) (comments : list CommentNode) : Prop :=
  exists locs, h !! l = Some (PyList locs) /\ Forall2 (node_at h) locs comments.

(** ** [count_comments_recursive] (server.py) *)

(** The [stats] dict: ['max_depth'] and the ['by_depth'] dict. *)
Record Stats : Type := MkStats {
  max_depth : nat;
  by_depth : gmap nat nat
}.

(** [{'max_depth': 0, 'by_depth': {}}], what the function makes when
    [stats is None] and what the [/scrape] handler passes. *)
Definition fresh_stats : Stats := {| max_depth := 0; by_depth := ∅ |}.

(** The two assignments to [stats] in the loop body. *)
Definition record_depth (depth : nat) (stats : Stats) : Stats :=
  {| max_depth := Nat.max (max_depth stats) depth;
     by_depth := <[depth := default 0 (by_depth stats !! depth) + 1]> (by_depth stats) |}.

(** [comment.get('replies')] as a condition: a non-empty list. *)
Definition has_replies (comment : CommentNode) : bool :=
  match c_replies comment with
  | [] => false
  | _ :: _ => true
  end.

(** One turn of the loop: [acc] is [total] and the shared [stats] dict. *)
Fixpoint count_comment (depth : nat) (acc : nat * Stats) (comment : CommentNode)
  : nat * Stats :=
  let total := fst acc + 1 in
  let stats := record_depth depth (snd acc) in
  if has_replies comment then
    let sub := fold_left (count_comment (S depth)) (c_replies comment) (0, stats) in
    (total + fst sub, snd sub)
  else (total, stats).

(** The returned total, paired with the [stats] dict as the call leaves it. *)
Definition count_comments_recursive (comments : list CommentNode) (depth : nat)
    (stats : Stats) : nat * Stats :=
  fold_left (count_comment depth) comments (0, stats).

(** Sum of the values of a ['by_depth'] dict. *)
Definition sum_counts (m : gmap nat nat) : nat :=
  map_fold (fun _ n acc => n + acc) 0 m.

(** Every depth with a count is at most ['max_depth']. *)
Definition depths_bounded (stats : Stats) : Prop :=
  forall depth, is_Some (by_depth stats !! depth) -> depth <= max_depth stats.

(** What the walk of a forest does to the shared dict: the sum of the counts
    grows by the number of nodes, and the bound on the depths is kept. *)
Definition walk_ok (c : CommentNode) : Prop :=
  forall depth acc,
    sum_counts (by_depth (snd (count_comment depth acc c)))
    = sum_counts (by_depth (snd acc)) + S (count_all (c_replies c))
    /\ (depths_bounded (snd acc) -> depths_bounded (snd (count_comment depth acc c))).

(** ** Text operations used by the URL validator (server.py)

    A Python [str] is modelled by a [string] with one [ascii] per code
    point, so the texts covered are those of code points below 256. *)

(** [needle in hay] *)
Fixpoint contains (needle hay : string) : bool :=
  String.prefix needle hay
  || match hay with
     | EmptyString => false
     | String _ rest => contains needle rest
     end.

(** [s.replace(old, new)] for a non-empty [old]: the occurrences are taken
    from left to right without overlap; [skip] counts the characters of an
    occurrence still to pass over. *)
Fixpoint replace_from (old new : string) (skip : nat) (s : string) : string :=
  match s with
  | EmptyString => EmptyString
  | String c rest =>
      match skip with
      | S k => replace_from old new k rest
      | O =>
          if String.prefix old s
          then new +:+ replace_from old new (String.length old - 1) rest
          else String c (replace_from old new 0 rest)
      end
  end.

Definition replace (old new s : string) : string := replace_from old new 0 s.

(** The fragment of regular expressions the validator's pattern needs. *)
Inductive regex : Type :=
  | Eps
  | Chr (p : ascii -> bool)
  | Seq (r1 r2 : regex)
  | Opt (r : regex)
  | PlusOf (p : ascii -> bool).

(** Greedy repetition of a character set, then the continuation [k]. *)
Fixpoint many (p : ascii -> bool) (s : string) (k : string -> bool) : bool :=
  match s with
  | EmptyString => k EmptyString
  | String c rest => (p c && many p rest k) || k s
  end.

(** A backtracking matcher: [k] decides on the rest of the text. *)
Fixpoint re_exec (r : regex) (s : string) (k : string -> bool) : bool :=
  match r with
  | Eps => k s
  | Chr p =>
      match s with
      | EmptyString => false
      | String c rest => p c && k rest
      end
  | Seq r1 r2 => re_exec r1 s (fun rest => re_exec r2 rest k)
  | Opt r1 => re_exec r1 s k || k s
  | PlusOf p =>
      match s with
      | EmptyString => false
      | String c rest => p c && many p rest k
      end
  end.

(** [re.match(r, s)] as a condition: [r] matches at the start of [s]. *)
Definition re_match (r : regex) (s : string) : bool := re_exec r s (fun _ => true).

Fixpoint lit (s : string) : regex :=
  match s with
  | EmptyString => Eps
  | String c rest => Seq (Chr (Ascii.eqb c)) (lit rest)
  end.

Definition between (lo hi n : N) : bool := (N.leb lo n && N.leb n hi)%N.

(** [\w] of a [str] pattern: the underscore and the code points that are
    alphanumeric ([isalnum]), here for the code points below 256. *)
Definition is_word (c : ascii) : bool :=
  let n := N_of_ascii c in
  between 48 57 n || between 65 90 n || N.eqb n 95 || between 97 122 n
  || N.eqb n 170 || between 178 179 n || N.eqb n 181 || between 185 186 n
  || between 188 190 n || between 192 214 n || between 216 246 n
  || between 248 255 n.

(** [r'https?://old\.reddit\.com/r/\w+/comments/'] *)
Definition reddit_url_pattern : regex :=
  Seq (lit "http")
   (Seq (Opt (lit "s"))
    (Seq (lit "://old.reddit.com/r/")
     (Seq (PlusOf is_word) (lit "/comments/")))).

(** ** [ScrapeRequest.validate_reddit_url] (server.py) *)

Definition normalize_url (v : string) : string :=
  if contains "reddit.com" v then
    let v := replace "www.reddit.com" "reddit.com" v in
    if negb (contains "old.reddit.com" v)
    then replace "reddit.com" "old.reddit.com" v
    else v
  else v.

Definition invalid_url_message : string :=
  "Invalid Reddit URL. Expected format: https://reddit.com/r/subreddit/comments/post_id/...".

Definition validate_reddit_url (v : string) : result string :=
  let v := normalize_url v in
  if negb (re_match reddit_url_pattern v)
  then Raise (ValueError invalid_url_message)
  else Ok v.

(** ** The [/scrape] endpoint (server.py) *)

(** What [subprocess.run(..., capture_output=True, text=True)] returns. *)
Record Completed : Type := MkCompleted {
  returncode : Z;
  stdout : string;
  stderr : string
}.

(** The calls the endpoint makes to the outside: the scraper process, which
    is what fetches from the network. *)
Inductive event : Type :=
  | Subprocess (argv : list string).

Record ResponseStats : Type := MkResponseStats {
  total_comments : nat;
  top_level_comments : nat;
  stats_max_depth : nat;
  comments_by_depth : gmap nat nat
}.

Inductive response : Type :=
  | Unprocessable (e : exn)
  | ServerError (detail : string)
  | Scraped (url : string) (post : json) (comments : list CommentNode)
            (stats : ResponseStats).

Section Service.

(** The interpreter path, the scraper process and the decoding of its
    output ([data['post']] and [data['comments']]); the right summand is
    the text of the exception raised instead. *)
Variable python_exe : string.
Variable subprocess_run : list string -> Completed + string.
Variable json_loads : string -> (json * list CommentNode) + string.

Definition failed (e : string) : response :=
  ServerError ("Failed to scrape Reddit post: " +:+ e).

(** The handler [scrape_reddit(request)], with the calls it made. *)
Definition scrape_reddit (url : string) : list event * response :=
  let argv := [python_exe; "-m"; "reddit_scraper.scraper"; url] in
  ([Subprocess argv],
   match subprocess_run argv with
   | inr e => failed e
   | inl result =>
       if negb (Z.eqb (returncode result) 0)
       then failed ("Scraper failed: " +:+ stderr result)
       else
         match json_loads (stdout result) with
         | inr e => failed e
         | inl (post, comments) =>
             let counted := count_comments_recursive comments 0 fresh_stats in
             Scraped url post comments
               {| total_comments := fst counted;
                  top_level_comments := length comments;
                  stats_max_depth := max_depth (snd counted);
                  comments_by_depth := by_depth (snd counted) |}
         end
   end).

(** A [POST /scrape] with body [{"url": url}]: the framework builds the
    [ScrapeRequest], running the field validator, and calls the handler
    only with a request that validated. *)
Definition post_scrape (url : string) : list event * response :=
  match validate_reddit_url url with
  | Raise e => ([], Unprocessable e)
  | Ok v => scrape_reddit v
  end.

End Service.

(** ** The design document's URL pattern *)

Fixpoint all_chars (p : ascii -> bool) (s : string) : bool :=
  match s with
  | EmptyString => true
  | String c rest => p c && all_chars p rest
  end.

(** [https?://old.reddit.com/r/<community>/comments/...]: the community is
    a non-empty run of word characters. *)
Definition thread_url (s : string) : Prop :=
  exists scheme community rest,
    s = scheme +:+ "://old.reddit.com/r/" +:+ community +:+ "/comments/" +:+ rest
    /\ (scheme = "http" \/ scheme = "https")
    /\ community <> ""
    /\ all_chars is_word community = true.

(** ** The example thread of the design document *)

Module Example.

(** A stand-in for [str()] on values that are not text. *)
Definition str_other (_ : json) : string := "?".

(** The reply [b] of the example: a flair on a deleted author, and the
    [false] marker for "no replies". *)
Definition fields_b : list (string * json) :=
  [("id", JStr "b"); ("author", JStr "[deleted]"); ("author_flair_text", JStr "Mod");
   ("score", JInt 1); ("body", JStr "yo"); ("replies", JBool false)].

Definition entry_b : list (string * json) :=
  [("kind", JStr "t1"); ("data", JObj fields_b)].

Definition fields_a : list (string * json) :=
  [("id", JStr "a"); ("author", JStr "bob"); ("score", JInt 5); ("body", JStr "hi");
   ("replies", JObj [("data", JObj [("children", JArr [JObj entry_b])])])].

Definition entry_a : list (string * json) :=
  [("kind", JStr "t1"); ("data", JObj fields_a)].

Definition entries : list json := [JObj entry_a].

Definition node_b : CommentNode :=
  MkComment (JStr "b") (JStr "[deleted] (Mod)") (JInt 0) (JInt 1) (JStr "yo") [].

Definition node_a : CommentNode :=
  MkComment (JStr "a") (JStr "bob") (JInt 0) (JInt 5) (JStr "hi") [node_b].

(** A "load more" placeholder. *)
Definition entry_more : list (string * json) :=
  [("kind", JStr "more");
   ("data", JObj [("count", JInt 3); ("children", JArr [JStr "c"; JStr "d"])])].

(** A comment payload with a flair and nothing else but its id. *)
Definition fields_bare : list (string * json) :=
  [("id", JStr "z"); ("author_flair_text", JStr "Mod")].

Definition entry_bare : list (string * json) :=
  [("kind", JStr "t1"); ("data", JObj fields_bare)].

(** A post payload without ['author_flair_text'] and ['score']. *)
Definition fields_post : list (string * json) :=
  [("title", JStr "A thread"); ("author", JStr "alice"); ("subreddit", JStr "python");
   ("num_comments", JInt 2)].

(** The forest [[node_a]] as objects: the list at 1 holds the dict at 2,
    whose replies are the list at 3, and so on. *)
Definition store : gmap loc pyobj :=
  <[1%positive := PyList [2%positive]]>
  (<[2%positive := PyComment (JStr "a") (JStr "bob") (JInt 0) (JInt 5) (JStr "hi")
                             (Some 3%positive)]>
  (<[3%positive := PyList [4%positive]]>
  (<[4%positive := PyComment (JStr "b") (JStr "[deleted] (Mod)") (JInt 0) (JInt 1)
                             (JStr "yo") (Some 5%positive)]>
  (<[5%positive := PyList []]> ∅)))).

(** An endpoint whose scraper process cannot be started. *)
Definition no_process (_ : list string) : Completed + string := inr "no process".
Definition no_output (_ : string) : (json * list CommentNode) + string := inr "no output".

End Example.

(** ** Measures of a built forest *)

(** The number of nodes [depth] levels below the top of a forest. *)
Fixpoint nodes_at (depth : nat) (comments : list CommentNode) : nat :=
  match depth with
  | O => length comments
  | S depth' => list_sum (map (fun c => nodes_at depth' (c_replies c)) comments)
  end.

(** How many levels of replies hang below a node. *)
Fixpoint deepest (comment : CommentNode) : nat :=
  list_max (map (fun r => S (deepest r)) (c_replies comment)).

(** The depth of the deepest node of a forest (0 for the empty forest). *)
Definition max_nesting (comments : list CommentNode) : nat :=
  list_max (map deepest comments).

(** ** The scraper's output as the server reads it (server.py)

    The handler decodes what the scraper printed with [json.dumps]; a comment
    dict comes back as a dict with the same six members, in the same order. *)

Fixpoint node_json (comment : CommentNode) : json :=
  JObj [("id", c_id comment); ("author", c_author comment);
        ("timestamp", c_timestamp comment); ("score", c_score comment);
        ("text", c_text comment);
        ("replies", JArr (map node_json (c_replies comment)))].

(** [data['comments']] for a scraped forest. *)
Definition forest_json (comments : list CommentNode) : json :=
  JArr (map node_json comments).

(** The body of [count_comments_recursive] on decoded values, with the
    recursive call as [self]: [comments] may be any value, and so may each
    [comment]. *)
Definition count_json_body (self : json -> nat -> Stats -> result (nat * Stats))
    (comments : json) (depth : nat) (stats : Stats) : result (nat * Stats) :=
  items ← py_iter comments;
  for_each
    (fun acc comment =>
       let total := fst acc + 1 in
       let stats := record_depth depth (snd acc) in
       replies ← dict_get comment "replies" JNull;
       if truthy replies then
         nested ← subscript comment "replies";
         sub ← self nested (S depth) stats;
         Ok (total + fst sub, snd sub)
       else Ok (total, stats))
    items (0, stats).

Fixpoint count_json_at (stack : nat) (comments : json) (depth : nat) (stats : Stats)
  : result (nat * Stats) :=
  match stack with
  | O => Raise RecursionError
  | S stack' => count_json_body (count_json_at stack') comments depth stats
  end.

(** [count_comments_recursive] on a decoded value, with the stack its
    nesting needs. *)
Definition count_comments_recursive_json (comments : json) (depth : nat) (stats : Stats)
  : result (nat * Stats) :=
  count_json_at (S (json_depth comments)) comments depth stats.

(** ** [print_comment_tree] (scraper.py) *)

Section Printer.

Variable str_of_nontext : json -> string.

(** The two marks of the tree, ["• "] and ["└─ "]: their code points lie
    outside the texts modelled here. *)
Variable bullet : string.
Variable branch : string.

(** [s * n] *)
Fixpoint repeat_text (s : string) (n : nat) : string :=
  match n with
  | O => EmptyString
  | S n' => s +:+ repeat_text s n'
  end.

Definition line_prefix (indent : nat) : string :=
  match indent with
  | O => bullet
  | S _ => repeat_text "  " indent +:+ branch
  end.

(** [f"{prefix}{comment['author']} ({comment['score']} points)"] *)
Definition comment_line (indent : nat) (comment : CommentNode) : string :=
  line_prefix indent +:+ py_str str_of_nontext (c_author comment) +:+ " ("
  +:+ py_str str_of_nontext (c_score comment) +:+ " points)".

(** The lines one turn of the loop writes to the diagnostic stream. *)
Fixpoint print_comment (indent : nat) (comment : CommentNode) : list string :=
  comment_line indent comment
  :: (if has_replies comment
      then flat_map (print_comment (S indent)) (c_replies comment)
      else []).

Definition print_comment_tree (comments : list CommentNode) (indent : nat) : list string :=
  flat_map (print_comment indent) comments.

End Printer.

(** ** The fetch URL of [scrape_reddit_post] (scraper.py) *)

(** The conversion under [# Convert to old.reddit.com if needed]. *)
Definition scraper_normalize_url (url : string) : string :=
  if contains "reddit.com" url then
    let url := replace "www.reddit.com" "old.reddit.com" url in
    if negb (contains "old.reddit.com" url)
    then replace "reddit.com" "old.reddit.com" url
    else url
  else url.

(** [s.rstrip('/')] *)
Fixpoint rstrip_slash (s : string) : string :=
  match s with
  | EmptyString => EmptyString
  | String c rest =>
      let rest' := rstrip_slash rest in
      if Ascii.eqb c "/" && String.eqb rest' "" then EmptyString else String c rest'
  end.

(** [s.endswith('/')] *)
Fixpoint ends_with_slash (s : string) : bool :=
  match s with
  | EmptyString => false
  | String c EmptyString => Ascii.eqb c "/"
  | String _ rest => ends_with_slash rest
  end.

(** [json_url] for the converted [url]. *)
Definition json_url (url : string) : string :=
  rstrip_slash url +:+ ".json?limit=500".

(** The three hosts the validator and the scraper convert between. *)
Definition reddit_host (host : string) : Prop :=
  host = "www.reddit.com" \/ host = "reddit.com" \/ host = "old.reddit.com".

(** [needle] matches at the start of [a], or [a] is the start of [needle]:
    the only ways an occurrence of [needle] can begin where [a] begins in a
    text that goes on after [a]. *)
Definition may_start (needle a : string) : bool :=
  String.prefix needle a || String.prefix a needle.

(** No occurrence of [needle] begins inside [a], whatever follows [a]. *)
Fixpoint no_start (needle a : string) : bool :=
  match a with
  | EmptyString => true
  | String _ rest => negb (may_start needle a) && no_start needle rest
  end.

(** What the conversions need of the text before the host: none of the
    hosts begins in it, nor across its end. *)
Definition clean_prefix (pre : string) : bool :=
  no_start "www.reddit.com" pre && no_start "reddit.com" pre
  && no_start "old.reddit.com" (pre +:+ "reddit.com")
  && no_start "www.reddit.com" (pre +:+ "reddit.com")
  && no_start "www.reddit.com" (pre +:+ "old.reddit.com").

(** ** Shapes of listing entries *)

(** [entry] is a dict whose kind tag is the text ["t1"]. *)
Definition is_comment_entry (entry : json) : bool :=
  match entry with
  | JObj fields =>
      match dict_lookup "kind" fields with
      | Some (JStr kind) => String.eqb kind "t1"
      | _ => false
      end
  | _ => false
  end.

(** The number of comment entries of a listing. *)
Definition comment_entries (entries : list json) : nat :=
  length (List.filter is_comment_entry entries).

(** The payload says "no replies": the member is missing, falsy, or not a
    dict. *)
Definition no_replies (comment_data : list (string * json)) : Prop :=
  match dict_lookup "replies" comment_data with
  | None => True
  | Some raw => truthy raw = false \/ is_dict raw = false
  end.

(** An entry of the shape the JSON API documents: a tagged dict that, when
    it is a comment, has a dict payload whose replies are either absent or a
    listing of such entries. *)
Inductive listing_entry : json -> Prop :=
  | entry_other entry kind :
      dict_lookup "kind" entry = Some kind ->
      kind <> JStr "t1" ->
      listing_entry (JObj entry)
  | entry_leaf entry fields :
      dict_lookup "kind" entry = Some (JStr "t1") ->
      dict_lookup "data" entry = Some (JObj fields) ->
      no_replies fields ->
      listing_entry (JObj entry)
  | entry_nested entry fields replies_fields container items :
      dict_lookup "kind" entry = Some (JStr "t1") ->
      dict_lookup "data" entry = Some (JObj fields) ->
      dict_lookup "replies" fields = Some (JObj replies_fields) ->
      dict_lookup "data" replies_fields = Some (JObj container) ->
      dict_lookup "children" container = Some (JArr items) ->
      Forall listing_entry items ->
      listing_entry (JObj entry).

(** ** Reading the ['by_depth'] dict *)

(** The entry of a key after [n] more nodes were counted under it: no entry
    is made for a key that counted none. *)
Definition bump (entry : option nat) (n : nat) : option nat :=
  match n with
  | O => entry
  | S _ => Some (default 0 entry + n)
  end.

(** The nodes a walk started at [depth] counts under the key [key]. *)
Definition level_count (depth key : nat) (comments : list CommentNode) : nat :=
  if Nat.ltb key depth then 0 else nodes_at (key - depth) comments.

(** The deepest key a walk started at [depth] reaches. *)
Definition reach (depth : nat) (comments : list CommentNode) : nat :=
  match comments with
  | [] => 0
  | _ :: _ => depth + max_nesting comments
  end.

(** What the walk of one node, and of a forest, leaves in the dict. *)
Definition levels_ok (c : CommentNode) : Prop :=
  forall depth acc,
    (forall key,
        by_depth (snd (count_comment depth acc c)) !! key
        = bump (by_depth (snd acc) !! key) (level_count depth key [c]))
    /\ max_depth (snd (count_comment depth acc c))
       = Nat.max (max_depth (snd acc)) (depth + deepest c).

(** ** More example data *)

Module Sample.

(** The response of the JSON API for the example thread: the listing of the
    post, then the listing of its comments with a "load more" entry. *)
Definition post_listing : json :=
  JObj [("kind", JStr "Listing");
        ("data", JObj [("children",
           JArr [JObj [("kind", JStr "t3"); ("data", JObj Example.fields_post)]])])].

Definition comments_listing : json :=
  JObj [("kind", JStr "Listing");
        ("data", JObj [("children", JArr [JObj Example.entry_a; JObj Example.entry_more])])].

Definition response : json := JArr [post_listing; comments_listing].

(** A scraper process that ends well, and the decoding of what it printed. *)
Definition good_process (_ : list string) : Completed + string :=
  inl {| returncode := 0; stdout := "{...}"; stderr := "" |}.

Definition good_output (_ : string) : (json * list CommentNode) + string :=
  inl (JObj Example.fields_post, [Example.node_a]).

End Sample.

(** * Properties *)

(** ** The error monad and the loops *)

Lemma for_each_ext {A B : Type} (f g : B -> A -> result B) (items : list A) :
  (forall x, In x items -> forall acc, f acc x = g acc x) ->
  forall acc, for_each f items acc = for_each g items acc.
Proof.
  induction items as [|x rest IH]; intros Hfg acc; simpl; [reflexivity|].
  rewrite (Hfg x (or_introl eq_refl)).
  destruct (g acc x) as [acc'|e]; simpl; [|reflexivity].
  apply IH. intros y Hy. apply Hfg. now right.
Qed.

Lemma for_each_raise {A B : Type} (f : B -> A -> result B) (items : list A) (e : exn) :
  forall acc, for_each f items acc = Raise e ->
  exists x acc', In x items /\ f acc' x = Raise e.
Proof.
  induction items as [|x rest IH]; intros acc; simpl; [discriminate|].
  destruct (f acc x) as [acc'|e'] eqn:Hx; simpl.
  - intros H. destruct (IH _ H) as (y & a & Hy & Hfy). eauto.
  - intros [= ->]. eauto.
Qed.

Lemma get_default_some fields key default v :
  dict_lookup key fields = Some v -> get_default fields key default = v.
Proof. unfold get_default. now intros ->. Qed.

Lemma get_default_none fields key default :
  dict_lookup key fields = None -> get_default fields key default = default.
Proof. unfold get_default. now intros ->. Qed.

(** ** Depth of what the lookups return *)

Lemma list_max_le_elem (n : nat) (l : list nat) : In n l -> n <= list_max l.
Proof.
  induction l as [|m l IH]; simpl; [tauto|].
  intros [->|H]; [lia | specialize (IH H); lia].
Qed.

Lemma dict_lookup_depth key fields v :
  dict_lookup key fields = Some v -> json_depth v < json_depth (JObj fields).
Proof.
  intros H. simpl. apply Nat.lt_succ_r. apply list_max_le_elem.
  induction fields as [|[k x] rest IH]; simpl in *; [discriminate|].
  destruct (String.eqb key k).
  - injection H as ->. now left.
  - right. now apply IH.
Qed.

Lemma py_iter_depth v items x :
  py_iter v = Ok items -> In x items -> json_depth x <= json_depth v.
Proof.
  destruct v; simpl; try discriminate; intros [= <-] Hx.
  - assert (json_depth x = 0) as ->; [|lia].
    induction s as [|c s IH]; simpl in Hx; [tauto|].
    destruct Hx as [<-|Hx]; [reflexivity | now apply IH].
  - apply Nat.lt_le_incl, Nat.lt_succ_r, list_max_le_elem. now apply in_map.
  - assert (json_depth x = 0) as ->; [|lia].
    apply in_map_iff in Hx as [kv [<- _]]. reflexivity.
Qed.

(** ** [parse_comment] never runs out of stack *)

Section ParseComment.

Variable str_of_nontext : json -> string.

Abbreviation parse_comment_body := (parse_comment_body str_of_nontext).
Abbreviation parse_comment_at := (parse_comment_at str_of_nontext).
Abbreviation parse_comment := (parse_comment str_of_nontext).
Abbreviation comment_dict := (comment_dict str_of_nontext).
Abbreviation comment_author := (comment_author str_of_nontext).
Abbreviation with_flair := (with_flair str_of_nontext).
Abbreviation py_str := (py_str str_of_nontext).

Lemma build_forest_ext (f g : json -> result (option CommentNode)) entries :
  (forall x, In x entries -> f x = g x) ->
  build_forest f entries = build_forest g entries.
Proof.
  intros Hfg. unfold build_forest. apply for_each_ext.
  intros x Hx acc. now rewrite (Hfg x Hx).
Qed.

(** The entries a payload's loop visits lie strictly inside the payload. *)
Lemma reply_children_depth fields entries x :
  reply_children fields = Ok entries -> In x entries ->
  json_depth x < json_depth (JObj fields).
Proof.
  unfold reply_children.
  destruct (dict_lookup "replies" fields) as [raw|] eqn:Hraw; [|intros [= <-] []].
  apply dict_lookup_depth in Hraw.
  destruct (truthy raw); [|intros [= <-] []].
  destruct raw as [| | | | |?|replies_fields]; try (intros [= <-] []).
  unfold get_default at 1.
  destruct (dict_lookup "data" replies_fields) as [container|] eqn:Hc;
    [|intros [= <-] []].
  apply dict_lookup_depth in Hc.
  destruct container as [| | | | |?|cfields]; try discriminate.
  simpl dict_get. unfold get_default at 1.
  destruct (dict_lookup "children" cfields) as [children|] eqn:Hch;
    [|intros [= <-] []].
  apply dict_lookup_depth in Hch. simpl.
  intros Hit Hx. pose proof (py_iter_depth _ _ _ Hit Hx) as Hle.
  eapply Nat.le_lt_trans; [exact Hle|].
  eapply Nat.lt_trans; [exact Hch|].
  eapply Nat.lt_trans; [exact Hc | exact Hraw].
Qed.

Lemma parse_comment_body_ext (f g : json -> result (option CommentNode)) comment_obj :
  (forall x, json_depth x < json_depth comment_obj -> f x = g x) ->
  parse_comment_body f comment_obj = parse_comment_body g comment_obj.
Proof.
  intros Hfg. unfold parse_comment_body.
  destruct comment_obj as [| | | | |?|entry]; try reflexivity.
  simpl subscript.
  destruct (dict_lookup "kind" entry) as [kind|]; [|reflexivity].
  simpl. destruct (str_ne kind "t1"); [reflexivity|].
  destruct (dict_lookup "data" entry) as [data|] eqn:Hdata; [|reflexivity].
  apply dict_lookup_depth in Hdata. simpl.
  destruct data as [| | | | |?|fields]; try reflexivity.
  destruct (reply_children fields) as [entries|e] eqn:Hrc; [|reflexivity].
  simpl. rewrite (build_forest_ext f g entries); [reflexivity|].
  intros x Hx. apply Hfg.
  exact (Nat.lt_trans _ _ _ (reply_children_depth _ _ _ Hrc Hx) Hdata).
Qed.

Lemma parse_comment_at_stable (n m : nat) comment_obj :
  json_depth comment_obj < n -> json_depth comment_obj < m ->
  parse_comment_at n comment_obj = parse_comment_at m comment_obj.
Proof.
  revert m comment_obj.
  induction n as [|n IH]; intros m comment_obj Hn Hm; [lia|].
  destruct m as [|m]; [lia|]. simpl.
  apply parse_comment_body_ext. intros x Hx. apply IH; lia.
Qed.

(** The recursive equation of the source: [parse_comment] is its own body. *)
Lemma parse_comment_unfold comment_obj :
  parse_comment comment_obj = parse_comment_body parse_comment comment_obj.
Proof.
  unfold parse_comment at 1. simpl.
  apply parse_comment_body_ext. intros x Hx.
  apply parse_comment_at_stable; lia.
Qed.

Lemma build_forest_overflow (f : json -> result (option CommentNode)) entries :
  build_forest f entries = Raise RecursionError ->
  exists x, In x entries /\ f x = Raise RecursionError.
Proof.
  unfold build_forest. intros H.
  apply for_each_raise in H as (x & acc & Hx & Hfx).
  exists x. split; [exact Hx|].
  destruct (f x) as [[r|]|e]; simpl in Hfx; congruence.
Qed.

Lemma parse_comment_body_overflow (f : json -> result (option CommentNode)) comment_obj :
  parse_comment_body f comment_obj = Raise RecursionError ->
  exists x, json_depth x < json_depth comment_obj /\ f x = Raise RecursionError.
Proof.
  unfold parse_comment_body.
  destruct comment_obj as [| | | | |?|entry]; try discriminate.
  simpl subscript.
  destruct (dict_lookup "kind" entry) as [kind|]; [|discriminate].
  simpl. destruct (str_ne kind "t1"); [discriminate|].
  destruct (dict_lookup "data" entry) as [data|] eqn:Hdata; [|discriminate].
  apply dict_lookup_depth in Hdata. simpl.
  destruct data as [| | | | |?|fields]; try discriminate.
  destruct (reply_children fields) as [entries|e] eqn:Hrc; simpl.
  - destruct (build_forest f entries) as [rs|e] eqn:Hbf; [discriminate|].
    simpl. intros [= ->].
    apply build_forest_overflow in Hbf as [x [Hx Hfx]].
    exists x. split; [|exact Hfx].
    exact (Nat.lt_trans _ _ _ (reply_children_depth _ _ _ Hrc Hx) Hdata).
  - intros [= ->]. exfalso. revert Hrc. unfold reply_children.
    destruct (dict_lookup "replies" fields) as [raw|]; [|discriminate].
    destruct (truthy raw); [|discriminate].
    destruct raw as [| | | | |?|replies_fields]; try discriminate.
    destruct (get_default replies_fields "data" (JObj [])); try discriminate.
    simpl. destruct (get_default fields0 "children" (JArr [])); discriminate.
Qed.

(** Total: the bounded stack of [parse_comment_at] is never the reason
    [parse_comment] stops. *)
Lemma parse_comment_no_overflow comment_obj :
  parse_comment comment_obj <> Raise RecursionError.
Proof.
  remember (json_depth comment_obj) as d eqn:Hd.
  revert comment_obj Hd.
  induction d as [d IH] using lt_wf_ind. intros comment_obj -> H.
  rewrite parse_comment_unfold in H.
  apply parse_comment_body_overflow in H as [x [Hx Hfx]].
  exact (IH _ Hx x eq_refl Hfx).
Qed.

(** ** The tree builder *)

(** A comment entry with a dict payload: the node is the comment dict of
    the payload, filled with what the loop over its replies keeps. *)
Lemma parse_comment_t1 entry fields :
  dict_lookup "kind" entry = Some (JStr "t1") ->
  dict_lookup "data" entry = Some (JObj fields) ->
  parse_comment (JObj entry)
  = (entries ← reply_children fields;
     replies ← build_forest parse_comment entries;
     Ok (Some (comment_dict fields replies))).
Proof.
  intros Hkind Hdata. rewrite parse_comment_unfold.
  unfold parse_comment_body. simpl subscript.
  rewrite Hkind. simpl. rewrite Hdata. reflexivity.
Qed.

Lemma parse_comment_t1_node entry fields node :
  dict_lookup "kind" entry = Some (JStr "t1") ->
  dict_lookup "data" entry = Some (JObj fields) ->
  parse_comment (JObj entry) = Ok (Some node) ->
  exists replies, node = comment_dict fields replies.
Proof.
  intros Hkind Hdata. rewrite (parse_comment_t1 _ _ Hkind Hdata).
  destruct (reply_children fields) as [entries|e]; simpl; [|discriminate].
  destruct (build_forest parse_comment entries) as [replies|e]; simpl; [|discriminate].
  intros [= <-]. eauto.
Qed.

Lemma str_ne_true kind : kind <> JStr "t1" -> str_ne kind "t1" = true.
Proof.
  destruct kind as [| | | |s| |]; try reflexivity.
  intros Hne. simpl. destruct (String.eqb_spec s "t1") as [->|]; [contradiction | reflexivity].
Qed.

(** C3.  An entry whose kind tag is not ["t1"] gives no node: the call
    returns [None] and raises nothing, whatever else the entry holds. *)
Theorem non_comment_entry_gives_no_node entry kind :
  dict_lookup "kind" entry = Some kind ->
  kind <> JStr "t1" ->
  parse_comment (JObj entry) = Ok None.
Proof.
  intros Hkind Hne. rewrite parse_comment_unfold.
  unfold parse_comment_body. simpl subscript. rewrite Hkind. simpl.
  now rewrite (str_ne_true _ Hne).
Qed.

Lemma reply_children_sentinel fields raw :
  dict_lookup "replies" fields = Some raw ->
  is_dict raw = false \/ raw = JObj [] ->
  reply_children fields = Ok [].
Proof.
  intros Hraw Hshape. unfold reply_children. rewrite Hraw.
  destruct Hshape as [Hnd | ->]; [|reflexivity].
  destruct raw; try discriminate; now destruct (truthy _).
Qed.

(** A well-formed listing of replies: the loop runs over its children. *)
Lemma reply_children_listing fields replies_fields container items :
  dict_lookup "replies" fields = Some (JObj replies_fields) ->
  replies_fields <> [] ->
  dict_lookup "data" replies_fields = Some (JObj container) ->
  dict_lookup "children" container = Some (JArr items) ->
  reply_children fields = Ok items.
Proof.
  intros Hraw Hne Hdata Hchildren. unfold reply_children. rewrite Hraw.
  destruct replies_fields as [|kv rest]; [contradiction|]. simpl truthy. cbv iota.
  rewrite (get_default_some _ _ _ _ Hdata). simpl dict_get.
  now rewrite (get_default_some _ _ _ _ Hchildren).
Qed.

(** C2.  A comment entry whose payload has a ['replies'] member that is
    not a dict, or is the empty dict, gives a node with no children, and
    nothing is raised. *)
Theorem sentinel_replies_give_no_children entry fields raw :
  dict_lookup "kind" entry = Some (JStr "t1") ->
  dict_lookup "data" entry = Some (JObj fields) ->
  dict_lookup "replies" fields = Some raw ->
  is_dict raw = false \/ raw = JObj [] ->
  exists node, parse_comment (JObj entry) = Ok (Some node) /\ c_replies node = [].
Proof.
  intros Hkind Hdata Hraw Hshape.
  rewrite (parse_comment_t1 _ _ Hkind Hdata).
  rewrite (reply_children_sentinel _ _ Hraw Hshape). simpl.
  eexists. split; reflexivity.
Qed.

(** C4.  With a non-empty flair text in the payload the node's author is
    ["<author> (<flair>)"], where a missing author counts as ["[deleted]"];
    with no flair, or an empty one (or any falsy one, such as [null]), the
    author is left as it is. *)
Theorem flair_annotates_author entry fields node :
  dict_lookup "kind" entry = Some (JStr "t1") ->
  dict_lookup "data" entry = Some (JObj fields) ->
  parse_comment (JObj entry) = Ok (Some node) ->
  (forall flair,
      dict_lookup "author_flair_text" fields = Some (JStr flair) -> flair <> "" ->
      c_author node
      = JStr (py_str (get_default fields "author" (JStr "[deleted]"))
              +:+ " (" +:+ flair +:+ ")")
      /\ (forall author, dict_lookup "author" fields = Some (JStr author) ->
           c_author node = JStr (author +:+ " (" +:+ flair +:+ ")"))
      /\ (dict_lookup "author" fields = None ->
           c_author node = JStr ("[deleted]" +:+ " (" +:+ flair +:+ ")")))
  /\ (dict_lookup "author_flair_text" fields = None
       \/ dict_lookup "author_flair_text" fields = Some (JStr "") ->
       c_author node = get_default fields "author" (JStr "[deleted]"))
  /\ (truthy (get_default fields "author_flair_text" JNull) = false ->
       c_author node = get_default fields "author" (JStr "[deleted]")).
Proof.
  intros Hkind Hdata Hnode.
  destruct (parse_comment_t1_node _ _ _ Hkind Hdata Hnode) as [replies ->].
  simpl. unfold comment_author. split.
  - intros flair Hflair Hne.
    rewrite (get_default_some _ _ JNull _ Hflair).
    assert (truthy (JStr flair) = true) as ->.
    { simpl. destruct (String.eqb_spec flair ""); [contradiction | reflexivity]. }
    unfold with_flair. split; [reflexivity|]. split.
    + intros author Hauthor. now rewrite (get_default_some _ _ _ _ Hauthor).
    + intros Hauthor. now rewrite (get_default_none _ _ _ Hauthor).
  - split.
    + intros [Hflair|Hflair].
      * now rewrite (get_default_none _ _ JNull Hflair).
      * now rewrite (get_default_some _ _ JNull _ Hflair).
    + now intros ->.
Qed.

(** C5.  A member missing from the payload is replaced by its default in
    the post and in the comment dict: ["Unknown"] and ["[deleted]"] for the
    author (the latter before the flair annotation, when there is one), [0]
    for the timestamp and the score, the empty text for the body. *)
Theorem absent_fields_take_defaults :
  (forall url fields, exists post,
      build_post url (JObj fields) = Ok post
      /\ (dict_lookup "title" fields = None -> p_title post = JStr "Unknown")
      /\ (dict_lookup "author" fields = None -> p_author post = JStr "Unknown")
      /\ (dict_lookup "subreddit" fields = None -> p_subreddit post = JStr "Unknown")
      /\ (dict_lookup "created_utc" fields = None -> p_timestamp post = JInt 0)
      /\ (dict_lookup "score" fields = None -> p_score post = JInt 0)
      /\ (dict_lookup "num_comments" fields = None -> p_num_comments post = JInt 0)
      /\ (dict_lookup "selftext" fields = None -> p_selftext post = JStr ""))
  /\ (forall entry fields node,
      dict_lookup "kind" entry = Some (JStr "t1") ->
      dict_lookup "data" entry = Some (JObj fields) ->
      parse_comment (JObj entry) = Ok (Some node) ->
      (dict_lookup "id" fields = None -> c_id node = JStr "")
      /\ (dict_lookup "author" fields = None ->
           let flair := get_default fields "author_flair_text" JNull in
           c_author node
           = if truthy flair then with_flair (JStr "[deleted]") flair
             else JStr "[deleted]")
      /\ (dict_lookup "author" fields = None ->
           dict_lookup "author_flair_text" fields = None ->
           c_author node = JStr "[deleted]")
      /\ (dict_lookup "created_utc" fields = None -> c_timestamp node = JInt 0)
      /\ (dict_lookup "score" fields = None -> c_score node = JInt 0)
      /\ (dict_lookup "body" fields = None -> c_text node = JStr "")).
Proof.
  split.
  - intros url fields. eexists. split; [reflexivity|]. simpl. unfold get_default.
    repeat split; intros ->; reflexivity.
  - intros entry fields node Hkind Hdata Hnode.
    destruct (parse_comment_t1_node _ _ _ Hkind Hdata Hnode) as [replies ->].
    simpl. unfold comment_author, get_default.
    repeat split; try (intros ->; reflexivity).
    intros -> ->. reflexivity.
Qed.

Lemma build_forest_from (f : json -> result (option CommentNode)) entries acc :
  for_each
    (fun replies reply_obj =>
       reply ← f reply_obj;
       match reply with
       | Some r => Ok (replies ++ [r])
       | None => Ok replies
       end)
    entries acc
  = (nodes ← try_map f entries; Ok (acc ++ non_null nodes)).
Proof.
  revert acc. induction entries as [|x rest IH]; intros acc; simpl.
  - now rewrite app_nil_r.
  - destruct (f x) as [[r|]|e]; simpl; [| |reflexivity]; rewrite IH;
      destruct (try_map f rest) as [nodes|e]; simpl; try reflexivity.
    now rewrite <- app_assoc.
Qed.

Lemma build_forest_is_spec (f : json -> result (option CommentNode)) entries :
  build_forest f entries = build_forest_spec f entries.
Proof. unfold build_forest, build_forest_spec. now rewrite build_forest_from. Qed.

(** C6.  The forest built from a list of entries is the list of the
    non-null results of [parse_comment] on the entries, in their order; and
    the children of a node are built in the same way from the entries its
    payload nests, at whatever depth the node sits. *)
Theorem forest_keeps_non_null_results_in_order :
  (forall entries,
      build_forest parse_comment entries = build_forest_spec parse_comment entries)
  /\ (forall entry fields,
      dict_lookup "kind" entry = Some (JStr "t1") ->
      dict_lookup "data" entry = Some (JObj fields) ->
      parse_comment (JObj entry)
      = (entries ← reply_children fields;
         replies ← build_forest_spec parse_comment entries;
         Ok (Some (comment_dict fields replies)))).
Proof.
  split.
  - intros entries. apply build_forest_is_spec.
  - intros entry fields Hkind Hdata.
    rewrite (parse_comment_t1 _ _ Hkind Hdata).
    destruct (reply_children fields) as [entries|e]; simpl; [|reflexivity].
    now rewrite build_forest_is_spec.
Qed.

End ParseComment.

(** ** Induction on comment trees *)

Section CommentNodeInduction.

Variable P : CommentNode -> Prop.

Hypothesis node_case :
  forall id author timestamp score text replies,
    Forall P replies -> P (MkComment id author timestamp score text replies).

Fixpoint CommentNode_tree_ind (c : CommentNode) : P c :=
  match c with
  | MkComment id author timestamp score text replies =>
      node_case id author timestamp score text replies
        ((fix all (l : list CommentNode) : Forall P l :=
            match l with
            | [] => List.Forall_nil P
            | c' :: l' => @List.Forall_cons _ P c' l' (CommentNode_tree_ind c') (all l')
            end) replies)
  end.

End CommentNodeInduction.

Lemma forest_ind (P : CommentNode -> Prop) :
  (forall c, Forall P (c_replies c) -> P c) -> forall comments, Forall P comments.
Proof.
  intros Hstep comments. apply Forall_forall. intros c _.
  induction c using CommentNode_tree_ind. now apply Hstep.
Qed.

(** ** [count_all] *)

Lemma count_replies_eq comment : count_replies comment = count_all (c_replies comment).
Proof. destruct comment. reflexivity. Qed.

Lemma fold_count_shift (f : CommentNode -> nat) comments (a b : nat) :
  fold_left (fun total c => total + f c) comments (a + b)
  = a + fold_left (fun total c => total + f c) comments b.
Proof.
  revert b. induction comments as [|c rest IH]; intros b; simpl; [reflexivity|].
  rewrite <- Nat.add_assoc. apply IH.
Qed.

(** The design document's equation for [countAll]: each node counts for
    one plus the count of its children. *)
Lemma count_all_cons comment rest :
  count_all (comment :: rest) = S (count_all (c_replies comment)) + count_all rest.
Proof.
  unfold count_all at 1 3. simpl fold_left. simpl length.
  rewrite count_replies_eq.
  replace (S (length rest + count_all (c_replies comment)))
    with (S (count_all (c_replies comment)) + length rest) by lia.
  apply (fold_count_shift count_replies).
Qed.

Lemma count_all_nil : count_all [] = 0.
Proof. reflexivity. Qed.

(** ** [count_comments_recursive] *)

Lemma count_comment_eq depth acc comment :
  count_comment depth acc comment
  = let total := fst acc + 1 in
    let stats := record_depth depth (snd acc) in
    if has_replies comment then
      let sub := count_comments_recursive (c_replies comment) (S depth) stats in
      (total + fst sub, snd sub)
    else (total, stats).
Proof. destruct comment. reflexivity. Qed.

Lemma count_comments_recursive_cons comment rest depth acc :
  fold_left (count_comment depth) (comment :: rest) acc
  = fold_left (count_comment depth) rest (count_comment depth acc comment).
Proof. reflexivity. Qed.

Lemma has_replies_false comment : has_replies comment = false -> c_replies comment = [].
Proof. unfold has_replies. now destruct (c_replies comment). Qed.

(** The running total grows by the number of nodes the loop walks. *)
Lemma count_loop_total comments :
  forall depth acc,
    fst (fold_left (count_comment depth) comments acc) = fst acc + count_all comments.
Proof.
  assert (Hnodes : Forall (fun c => forall depth acc,
            fst (count_comment depth acc c) = fst acc + S (count_all (c_replies c)))
          comments).
  { apply forest_ind. intros c IH depth acc. rewrite count_comment_eq. cbv zeta.
    destruct (has_replies c) eqn:Hr.
    - unfold count_comments_recursive. simpl fst.
      assert (Hsub : forall replies,
                 Forall (fun c => forall depth acc,
                   fst (count_comment depth acc c) = fst acc + S (count_all (c_replies c)))
                   replies ->
                 forall d a, fst (fold_left (count_comment d) replies a)
                             = fst a + count_all replies).
      { clear. induction 1 as [|c' rest Hc' _ IHrest]; intros d a; simpl.
        - rewrite count_all_nil. lia.
        - rewrite IHrest, Hc', count_all_cons. lia. }
      rewrite (Hsub _ IH). simpl. lia.
    - simpl. rewrite (has_replies_false _ Hr), count_all_nil. lia. }
  induction Hnodes as [|c rest Hc _ IH]; intros depth acc; simpl.
  - rewrite count_all_nil. lia.
  - rewrite IH, Hc, count_all_cons. lia.
Qed.

(** C1.  Started on fresh statistics, the walk of the server returns the
    total that [count_all] of the scraper returns on the same forest. *)
Theorem depth_walk_total_is_count_all (comments : list CommentNode) :
  fst (count_comments_recursive comments 0 fresh_stats) = count_all comments.
Proof. unfold count_comments_recursive. now rewrite count_loop_total. Qed.

(** ** The statistics dict *)

Lemma sum_counts_insert (m : gmap nat nat) (k n : nat) :
  m !! k = None -> sum_counts (<[k := n]> m) = n + sum_counts m.
Proof.
  intros Hk. unfold sum_counts. apply (map_fold_insert_L _ 0 k n m); [|exact Hk].
  intros. lia.
Qed.

Lemma sum_counts_delete (m : gmap nat nat) (k n : nat) :
  m !! k = Some n -> sum_counts m = n + sum_counts (delete k m).
Proof.
  intros Hk. unfold sum_counts. apply (map_fold_delete_L _ 0 k n m); [|exact Hk].
  intros. lia.
Qed.

(** One turn of the loop adds one to the sum of the per-depth counts. *)
Lemma sum_counts_record depth stats :
  sum_counts (by_depth (record_depth depth stats)) = S (sum_counts (by_depth stats)).
Proof.
  unfold record_depth. simpl.
  destruct (by_depth stats !! depth) as [n|] eqn:Hd; simpl.
  - rewrite <- (insert_delete_eq (by_depth stats)).
    rewrite sum_counts_insert by apply lookup_delete_eq.
    rewrite (sum_counts_delete _ _ _ Hd). lia.
  - rewrite sum_counts_insert by exact Hd. lia.
Qed.

Lemma depths_bounded_record depth stats :
  depths_bounded stats -> depths_bounded (record_depth depth stats).
Proof.
  intros Hb d. unfold record_depth. simpl.
  destruct (decide (depth = d)) as [->|Hne].
  - intros _. lia.
  - rewrite lookup_insert_ne by exact Hne. intros Hd. specialize (Hb d Hd). lia.
Qed.

Lemma depths_bounded_fresh : depths_bounded fresh_stats.
Proof. intros d [n Hn]. simpl in Hn. now rewrite lookup_empty in Hn. Qed.

Lemma walk_loop comments :
  Forall walk_ok comments ->
  forall depth acc,
    sum_counts (by_depth (snd (fold_left (count_comment depth) comments acc)))
    = sum_counts (by_depth (snd acc)) + count_all comments
    /\ (depths_bounded (snd acc) ->
        depths_bounded (snd (fold_left (count_comment depth) comments acc))).
Proof.
  induction 1 as [|c rest Hc _ IH]; intros depth acc.
  - simpl. rewrite count_all_nil. split; [lia | tauto].
  - rewrite count_comments_recursive_cons.
    destruct (IH depth (count_comment depth acc c)) as [Hsum Hbound].
    destruct (Hc depth acc) as [Hsum' Hbound'].
    rewrite Hsum, Hsum', count_all_cons. split; [lia | tauto].
Qed.

Lemma walk_ok_all comments : Forall walk_ok comments.
Proof.
  apply forest_ind. intros c IH depth acc. rewrite count_comment_eq. cbv zeta.
  destruct (has_replies c) eqn:Hr.
  - unfold count_comments_recursive. simpl snd.
    destruct (walk_loop _ IH (S depth) (0, record_depth depth (snd acc))) as [Hsum Hbound].
    simpl snd in Hsum, Hbound. rewrite Hsum, sum_counts_record. split; [lia|].
    intros Hb. now apply Hbound, depths_bounded_record.
  - simpl snd. rewrite sum_counts_record, (has_replies_false _ Hr), count_all_nil.
    split; [lia | apply depths_bounded_record].
Qed.

(** C10.  After the walk from fresh statistics, the per-depth counts add up
    to the returned total, and no depth in the mapping exceeds the reported
    maximum. *)
Theorem depth_counts_sum_to_total (comments : list CommentNode) :
  let walk := count_comments_recursive comments 0 fresh_stats in
  sum_counts (by_depth (snd walk)) = fst walk
  /\ forall depth, depth ∈ dom (by_depth (snd walk)) -> depth <= max_depth (snd walk).
Proof.
  cbv zeta. unfold count_comments_recursive.
  destruct (walk_loop _ (walk_ok_all comments) 0 (0, fresh_stats)) as [Hsum Hbound].
  rewrite count_loop_total. split.
  - rewrite Hsum. reflexivity.
  - intros depth Hd. apply Hbound; [apply depths_bounded_fresh|].
    now apply elem_of_dom.
Qed.

(** ** Forests without replies *)

Lemma record_depth_zero_fresh :
  record_depth 0 fresh_stats = {| max_depth := 0; by_depth := {[0 := 1]} |}.
Proof. reflexivity. Qed.

Lemma record_depth_zero_again (n : nat) :
  record_depth 0 {| max_depth := 0; by_depth := {[0 := n]} |}
  = {| max_depth := 0; by_depth := {[0 := S n]} |}.
Proof.
  unfold record_depth. simpl. rewrite lookup_singleton_eq. simpl.
  rewrite insert_singleton_eq. f_equal. f_equal. lia.
Qed.

Lemma flat_walk_from (n : nat) comments :
  Forall (fun c => c_replies c = []) comments ->
  forall total,
    snd (fold_left (count_comment 0) comments
           (total, {| max_depth := 0; by_depth := {[0 := n]} |}))
    = {| max_depth := 0; by_depth := {[0 := n + length comments]} |}.
Proof.
  intros Hflat. revert n.
  induction Hflat as [|c rest Hc _ IH]; intros n total.
  - simpl. now rewrite Nat.add_0_r.
  - rewrite count_comments_recursive_cons, count_comment_eq. cbv zeta.
    unfold has_replies. rewrite Hc. simpl fst. simpl snd.
    rewrite record_depth_zero_again, IH. simpl length.
    now rewrite Nat.add_succ_r.
Qed.

(** C7, as the code has it.  On a forest none of whose nodes has replies
    the walk reports [max_depth = 0]; the mapping is [{0: len}] when the
    forest has a node and is empty when it has none. *)
Theorem flat_forest_stats (comments : list CommentNode) :
  Forall (fun c => c_replies c = []) comments ->
  let stats := snd (count_comments_recursive comments 0 fresh_stats) in
  max_depth stats = 0
  /\ (comments <> [] -> by_depth stats = {[0 := length comments]})
  /\ (comments = [] -> by_depth stats = ∅).
Proof.
  intros Hflat. cbv zeta. unfold count_comments_recursive.
  destruct Hflat as [|c rest Hc Hrest].
  - simpl. split; [reflexivity|]. split; [intros H; now contradiction H | reflexivity].
  - rewrite count_comments_recursive_cons, count_comment_eq. cbv zeta.
    unfold has_replies. rewrite Hc. simpl fst. simpl snd.
    rewrite record_depth_zero_fresh, (flat_walk_from 1 rest Hrest).
    simpl. split; [reflexivity|]. split; [reflexivity | discriminate].
Qed.

(** C7 as stated fails on the empty forest: the mapping is empty there,
    not [{0: 0}]. *)
Lemma empty_forest_has_no_depth_zero_entry :
  ~ (Forall (fun c => c_replies c = []) [] ->
     max_depth (snd (count_comments_recursive [] 0 fresh_stats)) = 0
     /\ by_depth (snd (count_comments_recursive [] 0 fresh_stats))
        = {[0 := length (@nil CommentNode)]}).
Proof.
  intros H. destruct (H (List.Forall_nil _)) as [_ Hmap].
  apply (f_equal (fun m => m !! 0)) in Hmap. simpl in Hmap.
  rewrite lookup_empty, lookup_singleton_eq in Hmap. discriminate.
Qed.

(** ** The matcher and the URL pattern *)

Lemma append_nil_l (s : string) : "" +:+ s = s.
Proof. reflexivity. Qed.

Lemma append_cons (c : ascii) (s t : string) : String c s +:+ t = String c (s +:+ t).
Proof. reflexivity. Qed.

Lemma re_exec_lit (p s : string) (k : string -> bool) :
  re_exec (lit p) s k = true <-> exists rest, s = p +:+ rest /\ k rest = true.
Proof.
  revert s. induction p as [|c p IH]; intros s; simpl.
  - split; [eauto | now intros [rest [-> H]]].
  - destruct s as [|c' s]; simpl.
    + split; [discriminate | now intros [rest [H _]]].
    + rewrite andb_true_iff, IH. split.
      * intros [Hc [rest [-> Hk]]]. apply Ascii.eqb_eq in Hc as ->. eauto.
      * intros [rest [[= -> ->] Hk]]. split; [apply Ascii.eqb_refl | eauto].
Qed.

Lemma many_spec (p : ascii -> bool) (s : string) (k : string -> bool) :
  many p s k = true
  <-> exists w rest, s = w +:+ rest /\ all_chars p w = true /\ k rest = true.
Proof.
  induction s as [|c s IH]; simpl.
  - split.
    + intros Hk. exists "", "". auto.
    + intros (w & rest & Hs & _ & Hk). destruct w; [|discriminate].
      rewrite append_nil_l in Hs. now subst rest.
  - rewrite orb_true_iff, andb_true_iff, IH. split.
    + intros [[Hc (w & rest & -> & Hw & Hk)] | Hk].
      * exists (String c w), rest. simpl. rewrite Hc, Hw. auto.
      * exists "", (String c s). auto.
    + intros (w & rest & Hs & Hw & Hk). destruct w as [|c' w]; simpl in Hw.
      * right. rewrite append_nil_l in Hs. now subst rest.
      * rewrite append_cons in Hs. injection Hs as -> ->. apply andb_true_iff in Hw as [Hc Hw].
        left. split; [exact Hc | eauto].
Qed.

Lemma re_exec_plus (p : ascii -> bool) (s : string) (k : string -> bool) :
  re_exec (PlusOf p) s k = true
  <-> exists w rest,
        s = w +:+ rest /\ w <> "" /\ all_chars p w = true /\ k rest = true.
Proof.
  destruct s as [|c s]; simpl.
  - split; [discriminate|]. intros (w & rest & Hs & Hne & _).
    destruct w; [contradiction | discriminate].
  - rewrite andb_true_iff, many_spec. split.
    + intros [Hc (w & rest & -> & Hw & Hk)].
      exists (String c w), rest. simpl. rewrite Hc, Hw. repeat split; auto.
    + intros (w & rest & Hs & Hne & Hw & Hk).
      destruct w as [|c' w]; [contradiction|]. simpl in Hw.
      rewrite append_cons in Hs. injection Hs as -> ->. apply andb_true_iff in Hw as [Hc Hw]. eauto 6.
Qed.

(** The validator's pattern matches exactly the texts of the documented
    form. *)
Lemma reddit_url_pattern_spec (s : string) :
  re_match reddit_url_pattern s = true <-> thread_url s.
Proof.
  unfold re_match, reddit_url_pattern, thread_url.
  cbn [re_exec]. rewrite re_exec_lit. split.
  - intros (r1 & -> & H). apply orb_true_iff in H.
    assert (exists scheme r2, "http" +:+ r1 = scheme +:+ r2
                              /\ (scheme = "http" \/ scheme = "https")
                              /\ re_exec (lit "://old.reddit.com/r/") r2
                                   (fun r3 => re_exec (PlusOf is_word) r3
                                      (fun r4 => re_exec (lit "/comments/") r4
                                         (fun _ => true))) = true)
      as (scheme & r2 & Hs & Hscheme & H2).
    { destruct H as [H|H].
      - apply re_exec_lit in H as (r2 & -> & H). exists "https", r2. auto.
      - exists "http", r1. auto. }
    rewrite Hs. clear Hs H.
    apply re_exec_lit in H2 as (r3 & -> & H3).
    apply re_exec_plus in H3 as (community & r4 & -> & Hne & Hw & H4).
    apply re_exec_lit in H4 as (rest & -> & _).
    exists scheme, community, rest. auto.
  - intros (scheme & community & rest & -> & Hscheme & Hne & Hw).
    assert (Htail : re_exec (lit "://old.reddit.com/r/")
                      ("://old.reddit.com/r/" +:+ community +:+ "/comments/" +:+ rest)
                      (fun r3 => re_exec (PlusOf is_word) r3
                         (fun r4 => re_exec (lit "/comments/") r4 (fun _ => true)))
                    = true).
    { apply re_exec_lit. eexists. split; [reflexivity|].
      apply re_exec_plus. exists community, ("/comments/" +:+ rest).
      repeat split; auto. }
    destruct Hscheme as [-> | ->].
    + eexists. split; [reflexivity|]. apply orb_true_iff. now right.
    + exists ("s" +:+ "://old.reddit.com/r/" +:+ community +:+ "/comments/" +:+ rest).
      split; [reflexivity|]. apply orb_true_iff. left.
      apply re_exec_lit. eexists. split; [reflexivity | exact Htail].
Qed.

(** ** The [/scrape] endpoint *)

Section ServiceProperties.

Variable python_exe : string.
Variable subprocess_run : list string -> Completed + string.
Variable json_loads : string -> (json * list CommentNode) + string.

Abbreviation endpoint := (post_scrape python_exe subprocess_run json_loads).

(** C8.  A request whose URL, once normalised to the old.reddit.com form,
    is not of the form https?://old.reddit.com/r/<community>/comments/...
    is refused with the validation error and the endpoint makes no call at
    all; so is the request for http://example.com/not-reddit. *)
Theorem invalid_url_refused_without_calls :
  (forall url,
      ~ thread_url (normalize_url url) ->
      validate_reddit_url url = Raise (ValueError invalid_url_message)
      /\ endpoint url = ([], Unprocessable (ValueError invalid_url_message)))
  /\ endpoint "http://example.com/not-reddit"
     = ([], Unprocessable (ValueError invalid_url_message)).
Proof.
  assert (Hgen : forall url,
             ~ thread_url (normalize_url url) ->
             validate_reddit_url url = Raise (ValueError invalid_url_message)
             /\ endpoint url = ([], Unprocessable (ValueError invalid_url_message))).
  { intros url Hurl.
    assert (Hv : validate_reddit_url url = Raise (ValueError invalid_url_message)).
    { unfold validate_reddit_url.
      destruct (re_match reddit_url_pattern (normalize_url url)) eqn:Hm; [|reflexivity].
      exfalso. now apply Hurl, reddit_url_pattern_spec. }
    split; [exact Hv|]. unfold post_scrape. now rewrite Hv. }
  split; [exact Hgen|].
  apply Hgen. intros H. apply reddit_url_pattern_spec in H. vm_compute in H. discriminate.
Qed.

End ServiceProperties.

(** ** [count_all] on the store *)

Lemma count_all_length comments : length comments <= count_all comments.
Proof.
  induction comments as [|c rest IH]; [reflexivity|].
  rewrite count_all_cons. simpl. lia.
Qed.

Lemma count_all_replies_lt comments :
  Forall (fun c => S (count_all (c_replies c)) <= count_all comments) comments.
Proof.
  induction comments as [|c rest IH]; constructor.
  - rewrite count_all_cons. lia.
  - eapply Forall_impl; [exact IH|]. intros c' Hc'. simpl in Hc'.
    rewrite count_all_cons. lia.
Qed.

Lemma node_at_weaken (h h' : gmap loc pyobj) :
  h ⊆ h' -> forall c l, node_at h l c -> node_at h' l c.
Proof.
  intros Hsub c. induction c as [id author ts score text replies IH]
    using CommentNode_tree_ind.
  intros l Hnode. inversion Hnode as [? lr locs ? ? ? ? ? ? Hl Hlr Hreplies]; subst.
  apply (node_at_intro h' l lr locs).
  - exact (lookup_weaken _ _ _ _ Hl Hsub).
  - exact (lookup_weaken _ _ _ _ Hlr Hsub).
  - clear Hl Hlr Hnode. induction Hreplies as [|x c xs cs Hxc _ IHrest].
    + constructor.
    + apply Forall_cons in IH as [Hc Hcs]. constructor; [now apply Hc | now apply IHrest].
Qed.

Lemma forest_at_weaken (h h' : gmap loc pyobj) l comments :
  h ⊆ h' -> forest_at h l comments -> forest_at h' l comments.
Proof.
  intros Hsub (locs & Hl & Hnodes). exists locs. split.
  - exact (lookup_weaken _ _ _ _ Hl Hsub).
  - eapply Forall2_impl; [exact Hnodes|]. intros x c. now apply node_at_weaken.
Qed.

Lemma for_list_step fuel body xs i acc (h : gmap loc pyobj) :
  for_list (S fuel) body xs i acc h
  = match h !! xs with
    | Some (PyList items) =>
        match items !! i with
        | Some x =>
            match body x acc h with
            | Some (acc', h') => for_list fuel body xs (S i) acc' h'
            | None => None
            end
        | None => Some (acc, h)
        end
    | _ => None
    end.
Proof.
  simpl. unfold mbind, heap_bind, read.
  destruct (h !! xs) as [[items|]|]; try reflexivity.
  destruct (items !! i); reflexivity.
Qed.

(** The loop over an unchanged list object, when every turn adds the count
    of its node and only extends the store. *)
Lemma for_list_counts body xs locs (h0 : gmap loc pyobj) :
  h0 !! xs = Some (PyList locs) ->
  forall suffix comments,
    Forall2 (fun x c => forall acc h, h0 ⊆ h ->
               exists h', body x acc h = Some (acc + count_replies c, h') /\ h ⊆ h')
            suffix comments ->
    forall done, locs = done ++ suffix ->
    forall fuel acc h, h0 ⊆ h -> length suffix < fuel ->
    exists h',
      for_list fuel body xs (length done) acc h
      = Some (fold_left (fun total c => total + count_replies c) comments acc, h')
      /\ h ⊆ h'.
Proof.
  intros Hxs suffix comments Hturns.
  induction Hturns as [|x c suffix comments Hx _ IH];
    intros done Hlocs fuel acc h Hsub Hfuel;
    (destruct fuel as [|fuel]; [simpl in Hfuel; lia|]);
    rewrite for_list_step, (lookup_weaken _ _ _ _ Hxs Hsub).
  - rewrite app_nil_r in Hlocs. subst locs.
    rewrite (proj2 (lookup_ge_None done (length done))) by lia.
    exists h. split; reflexivity.
  - subst locs. rewrite list_lookup_middle by reflexivity.
    destruct (Hx acc h Hsub) as (h1 & -> & Hsub1).
    destruct (IH (done ++ [x]) ltac:(now rewrite <- app_assoc) fuel
                 (acc + count_replies c) h1) as (h2 & Hloop & Hsub2).
    + now transitivity h.
    + simpl in Hfuel. lia.
    + rewrite length_app, Nat.add_1_r in Hloop. simpl.
      exists h2. split; [exact Hloop | now transitivity h1].
Qed.

Lemma alloc_extends (o : pyobj) (h : gmap loc pyobj) :
  exists l, alloc o h = Some (l, <[l := o]> h) /\ h ⊆ <[l := o]> h.
Proof.
  exists (fresh (dom h)). split; [reflexivity|].
  apply insert_subseteq, not_elem_of_dom, is_fresh.
Qed.

Lemma count_all_in_counts fuel :
  forall (h : gmap loc pyobj) l comments,
    forest_at h l comments ->
    count_all comments + 2 <= fuel ->
    exists h', count_all_in fuel l h = Some (count_all comments, h') /\ h ⊆ h'.
Proof.
  induction fuel as [|fuel IH]; intros h l comments (locs & Hl & Hnodes) Hfuel; [lia|].
  simpl. unfold mbind at 1, heap_bind at 1, py_len, mbind at 1, heap_bind at 1, read.
  rewrite Hl. simpl.
  destruct (for_list_counts
              (fun comment total =>
                 default ← alloc (PyList []);
                 replies ← get_replies comment default;
                 n ← count_all_in fuel replies;
                 mret (total + n))
              l locs h Hl locs comments) with (done := @nil loc) (fuel := fuel)
              (acc := length locs) (h := h) as (h' & Hloop & Hsub).
  - assert (Hlt : Forall (fun c => count_all (c_replies c) + 2 <= fuel) comments).
    { eapply Forall_impl; [apply count_all_replies_lt|]. intros c Hc. simpl in Hc. lia. }
    clear Hl Hfuel. induction Hnodes as [|x c xs cs Hxc _ IHrest]; constructor.
    + apply Forall_cons in Hlt as [Hc _].
      intros acc h1 Hsub1.
      destruct (alloc_extends (PyList []) h1) as (d & Hd & Hsubd).
      inversion Hxc as [? lr rlocs ? ? ? ? ? replies Hx Hlr Hreplies]; subst.
      simpl in Hc.
      destruct (IH (<[d := PyList []]> h1) lr replies) as (h2 & Hrec & Hsub2).
      * apply (forest_at_weaken h); [now transitivity h1|]. now exists rlocs.
      * exact Hc.
      * exists h2. split; [|now transitivity (<[d := PyList []]> h1)].
        unfold mbind, heap_bind. rewrite Hd. unfold get_replies, mbind, heap_bind, read.
        rewrite (lookup_weaken _ _ _ _ Hx (transitivity Hsub1 Hsubd)).
        unfold mret, heap_ret. rewrite Hrec.
        now rewrite count_replies_eq.
    + apply Forall_cons in Hlt as [_ Hcs]. now apply IHrest.
  - reflexivity.
  - reflexivity.
  - pose proof (count_all_length comments).
    apply Forall2_length in Hnodes. lia.
  - exists h'. split; [|exact Hsub]. simpl in Hloop. rewrite Hloop.
    apply Forall2_length in Hnodes. rewrite Hnodes. reflexivity.
Qed.

(** C9.  Given enough fuel, [count_all] returns the total of the forest and
    changes none of the objects it was given: every object of the store before
    the call is the same after it (the store only gains the default lists the
    call made), so the store still holds the same forest. *)
Theorem count_all_leaves_forest_unchanged (h : gmap loc pyobj) l comments fuel :
  forest_at h l comments ->
  count_all comments + 2 <= fuel ->
  exists h',
    count_all_in fuel l h = Some (count_all comments, h')
    /\ (forall x o, h !! x = Some o -> h' !! x = Some o)
    /\ forest_at h' l comments.
Proof.
  intros Hforest Hfuel.
  destruct (count_all_in_counts fuel h l comments Hforest Hfuel) as (h' & Hrun & Hsub).
  exists h'. split; [exact Hrun|]. split.
  - intros x o Hx. exact (lookup_weaken _ _ _ _ Hx Hsub).
  - exact (forest_at_weaken _ _ _ _ Hsub Hforest).
Qed.

(** ** The examples of the design document *)

Example example_forest :
  build_forest (parse_comment Example.str_other) Example.entries = Ok [Example.node_a].
Proof. reflexivity. Qed.

Example example_count : count_all [Example.node_a] = 2.
Proof. reflexivity. Qed.

Example example_stats :
  count_comments_recursive [Example.node_a] 0 fresh_stats
  = (2, {| max_depth := 1; by_depth := <[1 := 1]> {[0 := 1]} |}).
Proof. vm_compute. reflexivity. Qed.

Example example_store_count :
  fst <$> count_all_in 4 1%positive Example.store = Some 2.
Proof. vm_compute. reflexivity. Qed.

Example example_replace : replace "aa" "b" "aaa" = "ba".
Proof. reflexivity. Qed.

Example example_normalize :
  normalize_url "https://www.reddit.com/r/python/comments/abc123/title/"
  = "https://old.reddit.com/r/python/comments/abc123/title/".
Proof. reflexivity. Qed.

Example example_validate_thread :
  validate_reddit_url "http://reddit.com/r/python/comments/abc123/"
  = Ok "http://old.reddit.com/r/python/comments/abc123/".
Proof. vm_compute. reflexivity. Qed.

Example example_validate_user_page :
  validate_reddit_url "https://www.reddit.com/user/someone/comments/"
  = Raise (ValueError invalid_url_message).
Proof. vm_compute. reflexivity. Qed.

(** ** The theorems at work on the examples *)

Lemma sentinel_replies_give_no_children_witness :
  exists node,
    parse_comment Example.str_other (JObj Example.entry_b) = Ok (Some node)
    /\ c_replies node = [].
Proof.
  apply (sentinel_replies_give_no_children Example.str_other
           Example.entry_b Example.fields_b (JBool false)).
  - reflexivity.
  - reflexivity.
  - reflexivity.
  - left. reflexivity.
Defined.

Lemma non_comment_entry_gives_no_node_witness :
  parse_comment Example.str_other (JObj Example.entry_more) = Ok None.
Proof.
  apply (non_comment_entry_gives_no_node Example.str_other
           Example.entry_more (JStr "more")).
  - reflexivity.
  - discriminate.
Defined.

Lemma flair_annotates_author_witness :
  c_author (comment_dict Example.str_other Example.fields_bare [])
  = JStr "[deleted] (Mod)".
Proof.
  destruct (flair_annotates_author Example.str_other Example.entry_bare
              Example.fields_bare (comment_dict Example.str_other Example.fields_bare [])
              eq_refl eq_refl eq_refl) as [Hflair _].
  destruct (Hflair "Mod" eq_refl ltac:(discriminate)) as (_ & _ & Hdeleted).
  exact (Hdeleted eq_refl).
Defined.

Lemma absent_fields_take_defaults_witness :
  (exists post,
      build_post "https://old.reddit.com/r/python/comments/abc123"
        (JObj Example.fields_post) = Ok post
      /\ p_author post = JStr "alice" /\ p_score post = JInt 0
      /\ p_selftext post = JStr "")
  /\ c_score (comment_dict Example.str_other Example.fields_bare []) = JInt 0
  /\ c_text (comment_dict Example.str_other Example.fields_bare []) = JStr "".
Proof.
  destruct (absent_fields_take_defaults Example.str_other) as [Hpost Hcomment].
  split.
  - destruct (Hpost "https://old.reddit.com/r/python/comments/abc123" Example.fields_post)
      as (post & Hbuilt & _ & _ & _ & _ & Hscore & _ & Hself).
    exists post. split; [exact Hbuilt|]. split; [|split].
    + injection Hbuilt as <-. reflexivity.
    + exact (Hscore eq_refl).
    + exact (Hself eq_refl).
  - destruct (Hcomment Example.entry_bare Example.fields_bare
                (comment_dict Example.str_other Example.fields_bare [])
                eq_refl eq_refl eq_refl) as (_ & _ & _ & _ & Hscore & Htext).
    split; [exact (Hscore eq_refl) | exact (Htext eq_refl)].
Defined.

Lemma forest_keeps_non_null_results_in_order_witness :
  build_forest (parse_comment Example.str_other) (JObj Example.entry_more :: Example.entries)
  = Ok [Example.node_a]
  /\ parse_comment Example.str_other (JObj Example.entry_a)
     = Ok (Some (comment_dict Example.str_other Example.fields_a [Example.node_b])).
Proof.
  destruct (forest_keeps_non_null_results_in_order Example.str_other) as [Hforest Hnode].
  split.
  - rewrite Hforest. reflexivity.
  - rewrite (Hnode Example.entry_a Example.fields_a eq_refl eq_refl). reflexivity.
Defined.

Lemma flat_forest_stats_witness :
  by_depth (snd (count_comments_recursive [Example.node_b; Example.node_b] 0 fresh_stats))
  = {[0 := 2]}.
Proof.
  destruct (flat_forest_stats [Example.node_b; Example.node_b]) as (_ & Hmap & _).
  - repeat constructor.
  - apply Hmap. discriminate.
Defined.

Lemma invalid_url_refused_without_calls_witness :
  post_scrape "python3" Example.no_process Example.no_output
    "https://www.reddit.com/user/someone/comments/"
  = ([], Unprocessable (ValueError invalid_url_message)).
Proof.
  apply (proj1 (invalid_url_refused_without_calls "python3" Example.no_process
                  Example.no_output)).
  intros H. apply reddit_url_pattern_spec in H. vm_compute in H. discriminate.
Defined.

Lemma example_store_holds_forest : forest_at Example.store 1%positive [Example.node_a].
Proof.
  exists [2%positive]. split; [reflexivity|].
  constructor; [|constructor].
  apply (node_at_intro _ _ 3%positive [4%positive]); [reflexivity | reflexivity |].
  constructor; [|constructor].
  apply (node_at_intro _ _ 5%positive []); [reflexivity | reflexivity | constructor].
Qed.

Lemma count_all_leaves_forest_unchanged_witness :
  exists h',
    count_all_in 4 1%positive Example.store = Some (2, h')
    /\ (forall x o, Example.store !! x = Some o -> h' !! x = Some o)
    /\ forest_at h' 1%positive [Example.node_a].
Proof.
  apply (count_all_leaves_forest_unchanged Example.store 1%positive [Example.node_a] 4).
  - exact example_store_holds_forest.
  - vm_compute. lia.
Defined.

(** ** What the statistics count *)

Lemma nodes_at_nil depth : nodes_at depth [] = 0.
Proof. destruct depth; reflexivity. Qed.

Lemma nodes_at_cons depth comment rest :
  nodes_at depth (comment :: rest) = nodes_at depth [comment] + nodes_at depth rest.
Proof. destruct depth; simpl; lia. Qed.

Lemma nodes_at_below depth comment :
  nodes_at (S depth) [comment] = nodes_at depth (c_replies comment).
Proof. simpl. lia. Qed.

Lemma level_count_nil depth key : level_count depth key [] = 0.
Proof. unfold level_count. destruct (Nat.ltb key depth); [reflexivity | apply nodes_at_nil]. Qed.

Lemma level_count_cons depth key comment rest :
  level_count depth key (comment :: rest)
  = level_count depth key [comment] + level_count depth key rest.
Proof.
  unfold level_count. destruct (Nat.ltb key depth); [reflexivity | apply nodes_at_cons].
Qed.

(** A node counts for one under its own depth, and its replies count one
    level further down. *)
Lemma level_count_node depth key comment :
  level_count depth key [comment]
  = (if decide (key = depth) then 1 else 0) + level_count (S depth) key (c_replies comment).
Proof.
  unfold level_count.
  destruct (Nat.ltb_spec key depth) as [Hlt|Hge].
  - rewrite decide_False by lia.
    destruct (Nat.ltb_spec key (S depth)); [reflexivity | lia].
  - destruct (decide (key = depth)) as [->|Hne].
    + rewrite Nat.sub_diag. destruct (Nat.ltb_spec depth (S depth)); [reflexivity | lia].
    + destruct (Nat.ltb_spec key (S depth)); [lia|].
      replace (key - depth) with (S (key - S depth)) by lia.
      now rewrite nodes_at_below.
Qed.

Lemma bump_bump entry a b : bump (bump entry a) b = bump entry (a + b).
Proof. destruct a, b; simpl; try reflexivity; f_equal; lia. Qed.

Lemma record_depth_lookup depth stats key :
  by_depth (record_depth depth stats) !! key
  = bump (by_depth stats !! key) (if decide (key = depth) then 1 else 0).
Proof.
  unfold record_depth. simpl. destruct (decide (key = depth)) as [->|Hne].
  - now rewrite lookup_insert_eq.
  - now rewrite lookup_insert_ne by congruence.
Qed.

Lemma list_max_map_S {A : Type} (f : A -> nat) (l : list A) :
  l <> [] -> list_max (map (fun x => S (f x)) l) = S (list_max (map f l)).
Proof.
  induction l as [|x [|y l] IH]; intros Hne; [contradiction | simpl; lia |].
  change (Nat.max (S (f x)) (list_max (map (fun x => S (f x)) (y :: l)))
          = S (Nat.max (f x) (list_max (map f (y :: l))))).
  rewrite IH by discriminate. lia.
Qed.

Lemma deepest_eq comment :
  deepest comment = reach 1 (c_replies comment).
Proof.
  destruct comment as [? ? ? ? ? replies]. simpl deepest. simpl c_replies.
  destruct replies as [|r rest]; [reflexivity|].
  unfold reach, max_nesting. now rewrite list_max_map_S by discriminate.
Qed.

Lemma levels_loop comments :
  Forall levels_ok comments ->
  forall depth acc,
    (forall key,
        by_depth (snd (fold_left (count_comment depth) comments acc)) !! key
        = bump (by_depth (snd acc) !! key) (level_count depth key comments))
    /\ max_depth (snd (fold_left (count_comment depth) comments acc))
       = Nat.max (max_depth (snd acc)) (reach depth comments).
Proof.
  induction 1 as [|c rest Hc _ IH]; intros depth acc.
  - simpl. split; [|lia]. intros key. now rewrite level_count_nil.
  - rewrite count_comments_recursive_cons.
    destruct (IH depth (count_comment depth acc c)) as [Hkeys Hmax].
    destruct (Hc depth acc) as [Hkeys' Hmax']. split.
    + intros key. rewrite Hkeys, Hkeys', bump_bump.
      now rewrite (level_count_cons depth key c rest).
    + rewrite Hmax, Hmax'. unfold reach, max_nesting.
      destruct rest as [|c' rest]; simpl; lia.
Qed.

Lemma levels_ok_all comments : Forall levels_ok comments.
Proof.
  apply forest_ind. intros c IH depth acc. rewrite count_comment_eq. cbv zeta.
  rewrite deepest_eq.
  destruct (has_replies c) eqn:Hr.
  - unfold count_comments_recursive. simpl snd.
    destruct (levels_loop _ IH (S depth) (0, record_depth depth (snd acc))) as [Hkeys Hmax].
    simpl snd in Hkeys, Hmax. split.
    + intros key. rewrite Hkeys, record_depth_lookup, bump_bump.
      now rewrite level_count_node.
    + rewrite Hmax. unfold record_depth, reach. simpl max_depth.
      destruct (c_replies c); lia.
  - simpl snd. rewrite (has_replies_false _ Hr). split.
    + intros key. rewrite record_depth_lookup, level_count_node.
      rewrite (has_replies_false _ Hr), level_count_nil. now rewrite Nat.add_0_r.
    + unfold record_depth, reach. simpl. lia.
Qed.

(** X1.  After the walk from fresh statistics the mapping holds, under
    each depth, the number of nodes of the forest at that depth, and it has no
    entry for a depth without nodes. *)
Theorem by_depth_counts_each_level (comments : list CommentNode) (depth : nat) :
  by_depth (snd (count_comments_recursive comments 0 fresh_stats)) !! depth
  = match nodes_at depth comments with
    | O => None
    | S n => Some (S n)
    end.
Proof.
  unfold count_comments_recursive.
  destruct (levels_loop _ (levels_ok_all comments) 0 (0, fresh_stats)) as [Hkeys _].
  rewrite Hkeys. simpl snd. simpl by_depth. rewrite lookup_empty.
  unfold level_count. simpl. rewrite Nat.sub_0_r.
  destruct (nodes_at depth comments); reflexivity.
Qed.

(** X2.  The reported maximum is the depth of the deepest node of the
    forest (0 for the empty forest). *)
Theorem max_depth_is_deepest_level (comments : list CommentNode) :
  max_depth (snd (count_comments_recursive comments 0 fresh_stats)) = max_nesting comments.
Proof.
  unfold count_comments_recursive.
  destruct (levels_loop _ (levels_ok_all comments) 0 (0, fresh_stats)) as [_ Hmax].
  rewrite Hmax. unfold reach. simpl. destruct comments; reflexivity.
Qed.

Lemma deepest_ge depth comment :
  S depth <= deepest comment
  <-> c_replies comment <> [] /\ depth <= max_nesting (c_replies comment).
Proof.
  rewrite deepest_eq. unfold reach. destruct (c_replies comment) as [|r rest].
  - split; [lia | now intros [H _]].
  - split; [intros H; split; [discriminate | lia] | intros [_ H]; lia].
Qed.

(** A depth has nodes exactly when the forest is non-empty and reaches it. *)
Lemma nodes_at_positive depth :
  forall comments,
    nodes_at depth comments <> 0 <-> comments <> [] /\ depth <= max_nesting comments.
Proof.
  induction depth as [|depth IH]; intros comments.
  - simpl. destruct comments; simpl; split; try lia; try tauto.
    + intros _. split; [discriminate | lia].
  - unfold max_nesting. induction comments as [|c rest IHrest].
    + simpl. split; [lia | now intros [H _]].
    + change (nodes_at (S depth) (c :: rest))
        with (nodes_at depth (c_replies c) + nodes_at (S depth) rest).
      change (list_max (map deepest (c :: rest)))
        with (Nat.max (deepest c) (list_max (map deepest rest))).
      pose proof (IH (c_replies c)) as Hc. rewrite <- deepest_ge in Hc.
      split.
      * intros Hsum. split; [discriminate|].
        destruct (Nat.eq_dec (nodes_at depth (c_replies c)) 0) as [Hz|Hnz].
        -- assert (nodes_at (S depth) rest <> 0) as Hrest by lia.
           apply IHrest in Hrest as [_ Hrest]. lia.
        -- apply Hc in Hnz. lia.
      * intros [_ Hmax].
        destruct (Nat.le_gt_cases (S depth) (deepest c)) as [Hle|Hgt].
        -- apply Hc in Hle. lia.
        -- assert (nodes_at (S depth) rest <> 0); [|lia].
           apply IHrest. split; [|lia].
           intros ->. simpl in Hmax. lia.
Qed.

(** X3.  The depths of the mapping are exactly 0 .. max_depth when the
    forest has a node, and there is none when it is empty: no level is
    skipped. *)
Theorem by_depth_keys_are_contiguous (comments : list CommentNode) (depth : nat) :
  let stats := snd (count_comments_recursive comments 0 fresh_stats) in
  depth ∈ dom (by_depth stats) <-> comments <> [] /\ depth <= max_depth stats.
Proof.
  cbv zeta. rewrite elem_of_dom.
  assert (Hkey := levels_loop _ (levels_ok_all comments) 0 (0, fresh_stats)).
  destruct Hkey as [Hkeys Hmax]. unfold count_comments_recursive.
  rewrite Hkeys, Hmax. simpl snd. simpl by_depth. simpl max_depth.
  rewrite lookup_empty. unfold level_count. simpl Nat.ltb. cbv iota.
  rewrite Nat.sub_0_r.
  assert (reach 0 comments = max_nesting comments) as ->
    by (destruct comments; reflexivity).
  rewrite Nat.max_0_l.
  pose proof (nodes_at_positive depth comments) as Hpos.
  destruct (nodes_at depth comments) as [|n]; simpl.
  - split; [intros [x Hx]; discriminate|].
    intros H. apply Hpos in H. now contradiction H.
  - split; [intros _; now apply Hpos | eauto].
Qed.

(** ** [count_all] and the walk, piece by piece *)

(** X4.  [count_all] of a forest is the sum, over its nodes, of one plus
    [count_all] of the node's replies. *)
Theorem count_all_is_sum_over_nodes (comments : list CommentNode) :
  count_all comments = list_sum (map (fun c => S (count_all (c_replies c))) comments).
Proof.
  induction comments as [|c rest IH]; [reflexivity|].
  rewrite count_all_cons, IH. reflexivity.
Qed.

Lemma count_all_app (front back : list CommentNode) :
  count_all (front ++ back) = count_all front + count_all back.
Proof.
  induction front as [|c rest IH]; [reflexivity|].
  rewrite <- app_comm_cons, !count_all_cons, IH. lia.
Qed.

(** The running total only offsets what a turn of the loop returns. *)
Lemma count_comment_offset depth total stats comment :
  count_comment depth (total, stats) comment
  = (total + fst (count_comment depth (0, stats) comment),
     snd (count_comment depth (0, stats) comment)).
Proof.
  rewrite !count_comment_eq. cbv zeta. simpl fst. simpl snd.
  destruct (has_replies comment); simpl; f_equal; lia.
Qed.

Lemma count_loop_offset depth comments :
  forall total stats,
    fold_left (count_comment depth) comments (total, stats)
    = (total + fst (fold_left (count_comment depth) comments (0, stats)),
       snd (fold_left (count_comment depth) comments (0, stats))).
Proof.
  induction comments as [|c rest IH]; intros total stats.
  - simpl. f_equal. lia.
  - rewrite !count_comments_recursive_cons.
    rewrite (count_comment_offset depth total stats c).
    destruct (count_comment depth (0, stats) c) as [n stats'] eqn:Hc. simpl fst. simpl snd.
    rewrite (IH (total + n) stats'), (IH n stats'). simpl. f_equal. lia.
Qed.

(** X5.  Walking a forest in two pieces with the same [stats] dict gives
    what one walk gives: the totals add up and the second walk continues on
    the dict the first one left. *)
Theorem walk_in_two_pieces (front back : list CommentNode) (depth : nat) (stats : Stats) :
  let first := count_comments_recursive front depth stats in
  let second := count_comments_recursive back depth (snd first) in
  count_comments_recursive (front ++ back) depth stats
  = (fst first + fst second, snd second).
Proof.
  cbv zeta. unfold count_comments_recursive. rewrite fold_left_app.
  destruct (fold_left (count_comment depth) front (0, stats)) as [n stats'].
  simpl fst. simpl snd. apply count_loop_offset.
Qed.

(** ** The walk on what the server decodes *)

Lemma node_json_depth_replies comment :
  json_depth (forest_json (c_replies comment)) < json_depth (node_json comment).
Proof.
  destruct comment as [id author ts score text replies].
  unfold forest_json. simpl node_json. simpl c_replies.
  apply (dict_lookup_depth "replies"). reflexivity.
Qed.

Lemma forest_json_depth_node comment comments :
  In comment comments -> json_depth (node_json comment) < json_depth (forest_json comments).
Proof.
  intros Hin. unfold forest_json. simpl. apply Nat.lt_succ_r, list_max_le_elem.
  apply in_map. now apply in_map.
Qed.

Lemma count_json_at_forest stack :
  forall comments depth stats,
    json_depth (forest_json comments) < stack ->
    count_json_at stack (forest_json comments) depth stats
    = Ok (count_comments_recursive comments depth stats).
Proof.
  induction stack as [|stack IH]; intros comments depth stats Hstack; [lia|].
  simpl count_json_at. unfold count_json_body, forest_json at 1. simpl py_iter.
  change (Ok (map node_json comments) ≫= ?k) with (k (map node_json comments)).
  unfold count_comments_recursive.
  assert (Hin : forall c, In c comments -> json_depth (node_json c) <= stack).
  { intros c Hc. pose proof (forest_json_depth_node c comments Hc). lia. }
  clear Hstack. generalize (0, stats) as acc.
  induction comments as [|c rest IHrest]; intros acc; [reflexivity|].
  simpl map. simpl for_each. rewrite count_comments_recursive_cons.
  assert (Hturn :
    (dict_get (node_json c) "replies" JNull ≫= fun replies =>
       if truthy replies then
         subscript (node_json c) "replies" ≫= fun nested =>
         count_json_at stack nested (S depth) (record_depth depth (snd acc)) ≫= fun sub =>
         Ok (fst acc + 1 + fst sub, snd sub)
       else Ok (fst acc + 1, record_depth depth (snd acc)))
    = Ok (count_comment depth acc c)).
  { rewrite count_comment_eq. cbv zeta.
    pose proof (node_json_depth_replies c) as Hdepth.
    pose proof (Hin c (or_introl eq_refl)) as Hc.
    destruct c as [id author ts score text replies].
    simpl node_json. unfold dict_get, subscript, get_default. simpl dict_lookup.
    simpl c_replies in *. unfold has_replies. simpl c_replies.
    change (Ok (JArr (map node_json replies)) ≫= ?k) with (k (JArr (map node_json replies))).
    cbv beta. destruct replies as [|r replies']; [reflexivity|].
    simpl truthy. cbv iota.
    change (Ok (JArr (map node_json (r :: replies'))) ≫= ?k)
      with (k (JArr (map node_json (r :: replies')))).
    cbv beta. change (JArr (map node_json (r :: replies'))) with (forest_json (r :: replies')).
    rewrite IH by (unfold forest_json in *; lia). reflexivity. }
  rewrite Hturn. change (Ok (count_comment depth acc c) ≫= ?k) with (k (count_comment depth acc c)).
  apply IHrest. intros c' Hc'. apply Hin. now right.
Qed.

(** X6.  On the forest the scraper printed, decoded again by the handler,
    the walk over dicts raises nothing and returns the total and the
    statistics of the walk over the forest itself. *)
Theorem walk_on_decoded_forest (comments : list CommentNode) (depth : nat) (stats : Stats) :
  count_comments_recursive_json (forest_json comments) depth stats
  = Ok (count_comments_recursive comments depth stats).
Proof.
  unfold count_comments_recursive_json. apply count_json_at_forest. lia.
Qed.

(** ** The tree builder on whole listings *)

Section BuilderOnListings.

Variable str_of_nontext : json -> string.

Abbreviation parse := (parse_comment str_of_nontext).

Lemma try_map_ok {A B : Type} (f : A -> result B) (items : list A) :
  (forall x, In x items -> exists y, f x = Ok y) ->
  exists ys, try_map f items = Ok ys /\ length ys = length items.
Proof.
  induction items as [|x rest IH]; intros Hall; [now exists []|].
  destruct (Hall x (or_introl eq_refl)) as [y Hy].
  destruct IH as (ys & Hys & Hlen); [intros z Hz; apply Hall; now right|].
  exists (y :: ys). simpl. rewrite Hy. simpl. rewrite Hys. simpl.
  split; [reflexivity | now rewrite Hlen].
Qed.

(** A result is a node exactly for a comment entry. *)
Lemma parse_node_iff_comment entry r :
  parse entry = Ok r -> (is_Some r <-> is_comment_entry entry = true).
Proof.
  rewrite parse_comment_unfold. unfold parse_comment_body.
  destruct entry as [| | | | |?|fields]; try discriminate.
  simpl subscript. simpl is_comment_entry.
  destruct (dict_lookup "kind" fields) as [kind|]; [|discriminate]. simpl.
  destruct kind as [| | | |k| |]; simpl;
    try (intros [= <-]; split; [intros [? ?]; discriminate | discriminate]).
  destruct (String.eqb k "t1"); simpl.
  - destruct (dict_lookup "data" fields) as [data|]; [|discriminate]. simpl.
    destruct data; try discriminate.
    destruct (reply_children fields0) as [entries|]; [|discriminate]. simpl.
    destruct (build_forest _ entries); [|discriminate]. simpl.
    intros [= <-]. split; eauto.
  - intros [= <-]. split; [intros [? ?]; discriminate | discriminate].
Qed.

Lemma build_forest_length entries nodes :
  build_forest parse entries = Ok nodes ->
  length nodes = comment_entries entries.
Proof.
  rewrite build_forest_is_spec. unfold build_forest_spec, comment_entries.
  revert nodes. induction entries as [|x rest IH]; intros nodes.
  - intros [= <-]. reflexivity.
  - simpl try_map. destruct (parse x) as [r|e] eqn:Hx; [|discriminate]. simpl.
    destruct (try_map parse rest) as [rs|e]; [|discriminate]. simpl.
    intros [= <-]. specialize (IH (non_null rs) eq_refl).
    pose proof (parse_node_iff_comment x r Hx) as Hiff. simpl List.filter.
    destruct r as [n|]; simpl.
    + rewrite (proj1 Hiff) by eauto. simpl. now rewrite IH.
    + destruct (is_comment_entry x); [|exact IH].
      destruct (proj2 Hiff eq_refl); discriminate.
Qed.

(** X7.  A forest that gets built has one node for each comment entry of
    the listing: the other entries are dropped and no comment is. *)
Theorem forest_has_one_node_per_comment_entry entries nodes :
  build_forest parse entries = Ok nodes ->
  length nodes = comment_entries entries.
Proof. apply build_forest_length. Qed.

Lemma reply_children_no_replies fields :
  no_replies fields -> reply_children fields = Ok [].
Proof.
  unfold no_replies, reply_children.
  destruct (dict_lookup "replies" fields) as [raw|]; [|reflexivity].
  intros [-> | Hdict]; [reflexivity|].
  destruct raw; try discriminate; now destruct (truthy _).
Qed.

Lemma build_forest_ok (f : json -> result (option CommentNode)) entries :
  (forall x, In x entries -> exists r, f x = Ok r) ->
  exists nodes, build_forest f entries = Ok nodes.
Proof.
  intros Hall. rewrite build_forest_is_spec. unfold build_forest_spec.
  destruct (try_map_ok f entries Hall) as (rs & -> & _). simpl. eauto.
Qed.

Lemma listing_entry_parses_at (n : nat) :
  forall entry, json_depth entry < n -> listing_entry entry -> exists r, parse entry = Ok r.
Proof.
  induction n as [|n IH]; intros entry Hdepth Hshape; [lia|].
  inversion Hshape as [fields kind Hkind Hne
                      | fields data Hkind Hdata Hnone
                      | fields data rf container items Hkind Hdata Hraw Hrf Hc Hitems];
    subst entry.
  - exists None. rewrite parse_comment_unfold. unfold parse_comment_body.
    simpl subscript. rewrite Hkind. simpl. now rewrite (str_ne_true _ Hne).
  - rewrite (parse_comment_t1 _ _ _ Hkind Hdata).
    rewrite (reply_children_no_replies _ Hnone). simpl. eauto.
  - rewrite (parse_comment_t1 _ _ _ Hkind Hdata).
    assert (Hlisting : reply_children data = Ok items).
    { apply (reply_children_listing data rf container items); try assumption.
      intros ->. discriminate. }
    rewrite Hlisting. simpl.
    destruct (build_forest_ok parse items) as [nodes ->]; [|simpl; eauto].
    intros x Hx. apply IH.
    + pose proof (reply_children_depth _ _ _ Hlisting Hx) as Hlt.
      apply dict_lookup_depth in Hdata. lia.
    + rewrite Forall_forall in Hitems. apply Hitems. now apply list_elem_of_In.
Qed.

(** X8.  On a listing whose entries all have the documented shape the
    builder raises nothing: every entry is parsed and a forest is returned. *)
Theorem documented_listing_builds entries :
  Forall listing_entry entries ->
  exists nodes,
    build_forest parse entries = Ok nodes /\ length nodes = comment_entries entries.
Proof.
  intros Hshape.
  destruct (build_forest_ok parse entries) as [nodes Hnodes].
  - intros x Hx. apply (listing_entry_parses_at (S (json_depth x))); [lia|].
    rewrite Forall_forall in Hshape. apply Hshape. now apply list_elem_of_In.
  - exists nodes. split; [exact Hnodes|].
    now apply build_forest_length.
Qed.

(** X9.  What [parse_comment] raises on the entries it cannot read: an
    entry that is not a dict is a [TypeError], a missing kind tag or a
    comment without payload a [KeyError], a comment whose payload is not a dict
    an [AttributeError]. *)
Theorem unreadable_entries_raise :
  (forall entry, is_dict entry = false -> parse entry = Raise TypeError)
  /\ (forall fields, dict_lookup "kind" fields = None -> parse (JObj fields) = Raise KeyError)
  /\ (forall fields,
        dict_lookup "kind" fields = Some (JStr "t1") ->
        dict_lookup "data" fields = None ->
        parse (JObj fields) = Raise KeyError)
  /\ (forall fields data,
        dict_lookup "kind" fields = Some (JStr "t1") ->
        dict_lookup "data" fields = Some data ->
        is_dict data = false ->
        parse (JObj fields) = Raise AttributeError).
Proof.
  repeat split.
  - intros entry Hnot. rewrite parse_comment_unfold. now destruct entry.
  - intros fields Hkind. rewrite parse_comment_unfold. unfold parse_comment_body.
    simpl subscript. now rewrite Hkind.
  - intros fields Hkind Hdata. rewrite parse_comment_unfold. unfold parse_comment_body.
    simpl subscript. rewrite Hkind. simpl. now rewrite Hdata.
  - intros fields data Hkind Hdata Hnot. rewrite parse_comment_unfold.
    unfold parse_comment_body. simpl subscript. rewrite Hkind. simpl. rewrite Hdata.
    simpl. now destruct data.
Qed.

Lemma for_each_first_raise {A B : Type} (f : B -> A -> result B) (good : list A)
    (bad : A) (rest : list A) (e : exn) :
  (forall acc, f acc bad = Raise e) ->
  (forall x, In x good -> forall acc, exists acc', f acc x = Ok acc') ->
  forall acc, for_each f (good ++ bad :: rest) acc = Raise e.
Proof.
  intros Hbad. induction good as [|x good IH]; intros Hgood acc; simpl.
  - now rewrite Hbad.
  - destruct (Hgood x (or_introl eq_refl) acc) as [acc' ->]. simpl.
    apply IH. intros y Hy. apply Hgood. now right.
Qed.

(** X10.  No partial forest: when an entry of a listing raises and the
    entries before it are parsed, the whole forest raises the same exception,
    whatever follows; and a comment one of whose replies raises, raises. *)
Theorem first_unreadable_entry_fails_the_forest good bad rest e :
  (forall x, In x good -> exists r, parse x = Ok r) ->
  parse bad = Raise e ->
  build_forest parse (good ++ bad :: rest) = Raise e
  /\ (forall entry fields,
        dict_lookup "kind" entry = Some (JStr "t1") ->
        dict_lookup "data" entry = Some (JObj fields) ->
        reply_children fields = Ok (good ++ bad :: rest) ->
        parse (JObj entry) = Raise e).
Proof.
  intros Hgood Hbad.
  assert (Hforest : build_forest parse (good ++ bad :: rest) = Raise e).
  { unfold build_forest. apply for_each_first_raise.
    - intros acc. now rewrite Hbad.
    - intros x Hx acc. destruct (Hgood x Hx) as [[r|] ->]; simpl; eauto. }
  split; [exact Hforest|].
  intros entry fields Hkind Hdata Hlisting.
  rewrite (parse_comment_t1 _ _ _ Hkind Hdata), Hlisting. simpl.
  now rewrite Hforest.
Qed.

End BuilderOnListings.

(** ** Text search and replacement *)

Lemma append_assoc (a b c : string) : (a +:+ b) +:+ c = a +:+ b +:+ c.
Proof.
  induction a as [|x a IH]; [reflexivity|].
  rewrite !append_cons. now rewrite IH.
Qed.

Lemma prefix_nil (s : string) : String.prefix "" s = true.
Proof. now destruct s. Qed.

Lemma prefix_cons (a b : ascii) (s t : string) :
  String.prefix (String a s) (String b t)
  = if Ascii.eqb a b then String.prefix s t else false.
Proof.
  simpl. destruct (ascii_dec a b) as [->|Hne].
  - now rewrite Ascii.eqb_refl.
  - apply Ascii.eqb_neq in Hne. now rewrite Hne.
Qed.

Lemma prefix_append (needle rest : string) : String.prefix needle (needle +:+ rest) = true.
Proof.
  induction needle as [|c needle IH]; [apply prefix_nil|].
  rewrite append_cons, prefix_cons. now rewrite Ascii.eqb_refl.
Qed.

Lemma prefix_elim (needle s : string) :
  String.prefix needle s = true -> exists rest, s = needle +:+ rest.
Proof.
  revert s. induction needle as [|c needle IH]; intros s H; [now exists s|].
  destruct s as [|c' s]; [discriminate|].
  rewrite prefix_cons in H. destruct (Ascii.eqb_spec c c') as [<-|]; [|discriminate].
  destruct (IH s H) as [rest ->]. now exists rest.
Qed.

Lemma contains_eq (needle hay : string) :
  contains needle hay
  = String.prefix needle hay
    || match hay with
       | EmptyString => false
       | String _ rest => contains needle rest
       end.
Proof. now destruct hay. Qed.

Lemma contains_miss (needle : string) (c : ascii) (s : string) :
  String.prefix needle (String c s) = false ->
  contains needle (String c s) = contains needle s.
Proof. intros H. now rewrite contains_eq, H. Qed.

Lemma contains_hit (needle s : string) :
  String.prefix needle s = true -> contains needle s = true.
Proof. intros H. now rewrite contains_eq, H. Qed.

(** [needle in hay] holds exactly when [hay] has [needle] somewhere. *)
Lemma contains_spec (needle hay : string) :
  contains needle hay = true <-> exists a b, hay = a +:+ needle +:+ b.
Proof.
  split.
  - induction hay as [|c hay IH]; rewrite contains_eq, orb_true_iff.
    + intros [H|H]; [|discriminate].
      apply prefix_elim in H as [rest ->]. now exists "", rest.
    + intros [H|H].
      * apply prefix_elim in H as [rest ->]. now exists "", rest.
      * destruct (IH H) as (a & b & ->). now exists (String c a), b.
  - intros (a & b & ->). induction a as [|c a IH].
    + rewrite append_nil_l. apply contains_hit, prefix_append.
    + rewrite append_cons, contains_eq, IH. apply orb_true_r.
Qed.

(** A text without a part of [needle] is without [needle]. *)
Lemma contains_part (needle part x y hay : string) :
  needle = x +:+ part +:+ y -> contains part hay = false -> contains needle hay = false.
Proof.
  intros -> Hpart. destruct (contains (x +:+ part +:+ y) hay) eqn:H; [|reflexivity].
  apply contains_spec in H as (a & b & ->).
  assert (contains part (a +:+ (x +:+ part +:+ y) +:+ b) = true) as Hin; [|congruence].
  apply contains_spec. exists (a +:+ x), (y +:+ b).
  now rewrite !append_assoc.
Qed.

Lemma replace_miss (old new : string) (c : ascii) (s : string) :
  String.prefix old (String c s) = false ->
  replace_from old new 0 (String c s) = String c (replace_from old new 0 s).
Proof. intros H. cbn [replace_from]. now rewrite H. Qed.

Lemma replace_hit (old new : string) (c : ascii) (s : string) :
  String.prefix old (String c s) = true ->
  replace_from old new 0 (String c s)
  = new +:+ replace_from old new (String.length old - 1) s.
Proof. intros H. cbn [replace_from]. now rewrite H. Qed.

Lemma replace_skip (old new : string) (k : nat) (c : ascii) (s : string) :
  replace_from old new (S k) (String c s) = replace_from old new k s.
Proof. reflexivity. Qed.

(** Nothing to replace, nothing changes. *)
Lemma replace_absent (old new s : string) :
  contains old s = false -> replace old new s = s.
Proof.
  unfold replace. induction s as [|c s IH]; [reflexivity|].
  rewrite contains_eq. intros H. apply orb_false_iff in H as [Hpre Hrest].
  rewrite (replace_miss _ _ _ _ Hpre). now rewrite IH.
Qed.

(** A needle that has a dot after its first word cannot start inside a run
    of word characters that a slash ends. *)
Lemma prefix_word_run (word : string) (c : ascii) (more : string) (c' : ascii) (t : string) :
  all_chars is_word word = true -> is_word c = false -> is_word c' = false -> c <> c' ->
  forall run, all_chars is_word run = true ->
    String.prefix (word +:+ String c more) (run +:+ String c' t) = false.
Proof.
  intros Hword Hc Hc' Hne. induction word as [|y word IH]; intros run Hrun.
  - rewrite append_nil_l. destruct run as [|x run].
    + rewrite append_nil_l, prefix_cons.
      now destruct (Ascii.eqb_spec c c').
    + rewrite append_cons, prefix_cons.
      destruct (Ascii.eqb_spec c x) as [->|]; [|reflexivity].
      simpl in Hrun. rewrite Hc in Hrun. discriminate.
  - simpl in Hword. apply andb_true_iff in Hword as [Hy Hword].
    rewrite append_cons. destruct run as [|x run].
    + rewrite append_nil_l, prefix_cons.
      destruct (Ascii.eqb_spec y c') as [->|]; [|reflexivity].
      rewrite Hc' in Hy. discriminate.
    + rewrite append_cons, prefix_cons. destruct (Ascii.eqb_spec y x); [|reflexivity].
      simpl in Hrun. apply andb_true_iff in Hrun as [_ Hrun]. now apply IH.
Qed.

Lemma contains_word_run (word : string) (c : ascii) (more : string) (c' : ascii) (t : string) :
  all_chars is_word word = true -> is_word c = false -> is_word c' = false -> c <> c' ->
  forall run, all_chars is_word run = true ->
    contains (word +:+ String c more) (run +:+ String c' t)
    = contains (word +:+ String c more) (String c' t).
Proof.
  intros Hword Hc Hc' Hne. induction run as [|x run IH]; intros Hrun; [reflexivity|].
  rewrite append_cons, contains_miss.
  - apply IH. simpl in Hrun. now apply andb_true_iff in Hrun as [_ Hrun].
  - rewrite <- append_cons. now apply prefix_word_run.
Qed.

(** ** Thread URLs through the validator and the scraper *)

Ltac literal := rewrite ?append_cons, ?append_nil_l.

Ltac scan_contains :=
  repeat (rewrite contains_miss by reflexivity).

(** The path of a thread URL holds none of the three hosts when what
    follows the thread id does not. *)
Lemma thread_path_free (host community rest : string) :
  reddit_host host ->
  all_chars is_word community = true ->
  contains "reddit.com" rest = false ->
  contains host ("/r/" +:+ community +:+ "/comments/" +:+ rest) = false.
Proof.
  intros Hhost Hword Hrest.
  assert (Hin : contains host rest = false).
  { destruct Hhost as [-> | [-> | ->] ].
    - now apply (contains_part _ "reddit.com" "www." "").
    - exact Hrest.
    - now apply (contains_part _ "reddit.com" "old." ""). }
  literal.
  destruct Hhost as [-> | [-> | ->] ]; scan_contains.
  - rewrite (contains_word_run "www" "." "reddit.com" "/") by (assumption || reflexivity || discriminate).
    scan_contains. exact Hin.
  - rewrite (contains_word_run "reddit" "." "com" "/") by (assumption || reflexivity || discriminate).
    scan_contains. exact Hin.
  - rewrite (contains_word_run "old" "." "reddit.com" "/") by (assumption || reflexivity || discriminate).
    scan_contains. exact Hin.
Qed.

Lemma may_start_false (needle a t : string) :
  a <> "" -> may_start needle a = false -> String.prefix needle (a +:+ t) = false.
Proof.
  unfold may_start. revert a. induction needle as [|d needle IH]; intros a Hne H.
  - rewrite prefix_nil in H. discriminate.
  - destruct a as [|c a]; [contradiction|].
    rewrite append_cons, prefix_cons. rewrite !prefix_cons in H.
    rewrite (Ascii.eqb_sym c d) in H.
    destruct (Ascii.eqb d c); [|reflexivity].
    destruct a as [|c' a].
    + rewrite prefix_nil, orb_true_r in H. discriminate.
    + apply IH; [discriminate | exact H].
Qed.

Lemma contains_literal (needle a t : string) :
  no_start needle a = true -> contains needle (a +:+ t) = contains needle t.
Proof.
  induction a as [|c a IH]; intros H; [reflexivity|].
  simpl in H. apply andb_true_iff in H as [Hhere Hrest].
  apply negb_true_iff in Hhere.
  rewrite append_cons, contains_miss; [now apply IH|].
  rewrite <- append_cons. now apply may_start_false.
Qed.

Lemma replace_literal (needle new a t : string) :
  no_start needle a = true ->
  replace_from needle new 0 (a +:+ t) = a +:+ replace_from needle new 0 t.
Proof.
  induction a as [|c a IH]; intros H; [reflexivity|].
  simpl in H. apply andb_true_iff in H as [Hhere Hrest].
  apply negb_true_iff in Hhere.
  rewrite !append_cons, replace_miss; [now rewrite IH|].
  rewrite <- append_cons. now apply may_start_false.
Qed.

Lemma replace_skip_all (old new a t : string) :
  replace_from old new (String.length a) (a +:+ t) = replace_from old new 0 t.
Proof. induction a as [|c a IH]; [reflexivity|]. exact IH. Qed.

Lemma replace_occurrence (old new t : string) :
  old <> "" -> replace_from old new 0 (old +:+ t) = new +:+ replace_from old new 0 t.
Proof.
  destruct old as [|c old]; [contradiction|]. intros _.
  rewrite append_cons, replace_hit.
  - simpl String.length. rewrite Nat.sub_1_r. simpl Nat.pred.
    now rewrite replace_skip_all.
  - rewrite <- append_cons. apply prefix_append.
Qed.

(** One replacement in a text of the form prefix, occurrence, clean rest. *)
Lemma replace_once (old new pre t : string) :
  old <> "" -> no_start old pre = true -> contains old t = false ->
  replace old new (pre +:+ old +:+ t) = pre +:+ new +:+ t.
Proof.
  intros Hne Hpre Ht. unfold replace.
  rewrite replace_literal by exact Hpre. rewrite replace_occurrence by exact Hne.
  change (replace_from old new 0 t) with (replace old new t).
  now rewrite replace_absent.
Qed.

Lemma contains_after (needle pre t : string) :
  no_start needle pre = true -> contains needle t = false ->
  contains needle (pre +:+ t) = false.
Proof. intros Hpre Ht. now rewrite contains_literal. Qed.

(** Both conversions take a URL on any of the three hosts to the
    old.reddit.com one, when none of the hosts occurs after the host. *)
Lemma host_converted (pre host t : string) :
  clean_prefix pre = true ->
  reddit_host host ->
  (forall h, reddit_host h -> contains h t = false) ->
  normalize_url (pre +:+ host +:+ t) = pre +:+ "old.reddit.com" +:+ t
  /\ scraper_normalize_url (pre +:+ host +:+ t) = pre +:+ "old.reddit.com" +:+ t.
Proof.
  intros Hclean Hhost Hfree.
  pose proof (Hfree "www.reddit.com" (or_introl eq_refl)) as Hwww.
  pose proof (Hfree "reddit.com" (or_intror (or_introl eq_refl))) as Hplain.
  pose proof (Hfree "old.reddit.com" (or_intror (or_intror eq_refl))) as Hold.
  unfold clean_prefix in Hclean. rewrite !andb_true_iff in Hclean.
  destruct Hclean as [ [ [ [Hpw Hpp] Hpo] Hpwp] Hpwo].
  assert (Hplain_www : contains "www.reddit.com" (pre +:+ "reddit.com" +:+ t) = false).
  { rewrite <- append_assoc. now apply contains_after. }
  assert (Hplain_old : contains "old.reddit.com" (pre +:+ "reddit.com" +:+ t) = false).
  { rewrite <- append_assoc. now apply contains_after. }
  assert (Hold_www : contains "www.reddit.com" (pre +:+ "old.reddit.com" +:+ t) = false).
  { rewrite <- append_assoc. now apply contains_after. }
  assert (Hold_old : contains "old.reddit.com" (pre +:+ "old.reddit.com" +:+ t) = true).
  { apply contains_spec. now exists pre, t. }
  assert (Hplain_conv : replace "reddit.com" "old.reddit.com" (pre +:+ "reddit.com" +:+ t)
                        = pre +:+ "old.reddit.com" +:+ t).
  { now apply replace_once. }
  assert (Hhas : contains "reddit.com" (pre +:+ host +:+ t) = true).
  { apply contains_spec. destruct Hhost as [-> | [-> | ->] ].
    - exists (pre +:+ "www."), t. now rewrite append_assoc.
    - now exists pre, t.
    - exists (pre +:+ "old."), t. now rewrite append_assoc. }
  unfold normalize_url, scraper_normalize_url. rewrite Hhas.
  destruct Hhost as [-> | [-> | ->] ].
  - rewrite !replace_once by (assumption || discriminate).
    rewrite Hplain_old, Hold_old. simpl negb. cbv iota.
    rewrite ?Hplain_conv. split; reflexivity.
  - rewrite !(replace_absent "www.reddit.com") by exact Hplain_www.
    rewrite Hplain_old. simpl negb. cbv iota.
    rewrite ?Hplain_conv. split; reflexivity.
  - rewrite !(replace_absent "www.reddit.com") by exact Hold_www.
    rewrite Hold_old. simpl negb. cbv iota. split; reflexivity.
Qed.

(** X11.  The validator accepts a URL exactly when its converted form is of
    the documented form, and what it returns is that converted form. *)
Theorem accepted_url_is_converted_thread_url (v v' : string) :
  validate_reddit_url v = Ok v' <-> v' = normalize_url v /\ thread_url v'.
Proof.
  unfold validate_reddit_url.
  destruct (re_match reddit_url_pattern (normalize_url v)) eqn:Hm; simpl.
  - apply reddit_url_pattern_spec in Hm. split.
    + intros [= <-]. now split.
    + intros [-> _]. reflexivity.
  - split; [discriminate|]. intros [-> H].
    apply reddit_url_pattern_spec in H. congruence.
Qed.

Lemma thread_url_has_host (v : string) :
  thread_url v -> contains "old.reddit.com" v = true /\ contains "reddit.com" v = true.
Proof.
  intros (scheme & community & rest & -> & _). split; apply contains_spec.
  - exists (scheme +:+ "://"), ("/r/" +:+ community +:+ "/comments/" +:+ rest).
    now rewrite append_assoc.
  - exists (scheme +:+ "://old."), ("/r/" +:+ community +:+ "/comments/" +:+ rest).
    now rewrite append_assoc.
Qed.

(** X12.  A URL in which "reddit.com" does not occur is never accepted. *)
Theorem url_without_reddit_is_refused (v : string) :
  contains "reddit.com" v = false ->
  validate_reddit_url v = Raise (ValueError invalid_url_message).
Proof.
  intros Hno. unfold validate_reddit_url.
  assert (normalize_url v = v) as -> by (unfold normalize_url; now rewrite Hno).
  destruct (re_match reddit_url_pattern v) eqn:Hm; [|reflexivity].
  apply reddit_url_pattern_spec, thread_url_has_host in Hm as [_ Hm]. congruence.
Qed.

Lemma thread_url_converted (scheme host community rest : string) :
  scheme = "http" \/ scheme = "https" ->
  reddit_host host ->
  all_chars is_word community = true ->
  contains "reddit.com" rest = false ->
  let converted :=
    scheme +:+ "://old.reddit.com/r/" +:+ community +:+ "/comments/" +:+ rest in
  let v := scheme +:+ "://" +:+ host +:+ "/r/" +:+ community +:+ "/comments/" +:+ rest in
  normalize_url v = converted /\ scraper_normalize_url v = converted.
Proof.
  intros Hscheme Hhost Hword Hrest. cbv zeta.
  destruct (host_converted (scheme +:+ "://") host
              ("/r/" +:+ community +:+ "/comments/" +:+ rest)) as [Hserver Hscraper].
  - destruct Hscheme as [-> | ->]; vm_compute; reflexivity.
  - exact Hhost.
  - intros h Hh. now apply thread_path_free.
  - rewrite !append_assoc in Hserver, Hscraper. rewrite Hserver, Hscraper.
    destruct Hscheme as [-> | ->]; split; reflexivity.
Qed.

Lemma validate_thread_url (scheme host community rest : string) :
  scheme = "http" \/ scheme = "https" ->
  reddit_host host ->
  community <> "" ->
  all_chars is_word community = true ->
  contains "reddit.com" rest = false ->
  validate_reddit_url
    (scheme +:+ "://" +:+ host +:+ "/r/" +:+ community +:+ "/comments/" +:+ rest)
  = Ok (scheme +:+ "://old.reddit.com/r/" +:+ community +:+ "/comments/" +:+ rest).
Proof.
  intros Hscheme Hhost Hne Hword Hrest.
  destruct (thread_url_converted scheme host community rest Hscheme Hhost Hword Hrest)
    as [Hserver _].
  unfold validate_reddit_url. rewrite Hserver.
  assert (re_match reddit_url_pattern
            (scheme +:+ "://old.reddit.com/r/" +:+ community +:+ "/comments/" +:+ rest)
          = true) as ->; [|reflexivity].
  apply reddit_url_pattern_spec. now exists scheme, community, rest.
Qed.

(** X13.  A thread URL on www.reddit.com, reddit.com or old.reddit.com,
    with nothing after the thread id that holds "reddit.com", is accepted, and
    the validator returns it on old.reddit.com. *)
Theorem thread_url_is_accepted (scheme host community rest : string) :
  scheme = "http" \/ scheme = "https" ->
  reddit_host host ->
  community <> "" ->
  all_chars is_word community = true ->
  contains "reddit.com" rest = false ->
  validate_reddit_url
    (scheme +:+ "://" +:+ host +:+ "/r/" +:+ community +:+ "/comments/" +:+ rest)
  = Ok (scheme +:+ "://old.reddit.com/r/" +:+ community +:+ "/comments/" +:+ rest).
Proof. apply validate_thread_url. Qed.

(** X14.  On such a thread URL the scraper's own conversion gives the same
    old.reddit.com URL as the validator, and it leaves the validated URL as it
    is: the scraper fetches what the server validated. *)
Theorem scraper_converts_like_the_validator (scheme host community rest : string) :
  scheme = "http" \/ scheme = "https" ->
  reddit_host host ->
  community <> "" ->
  all_chars is_word community = true ->
  contains "reddit.com" rest = false ->
  forall v', validate_reddit_url
               (scheme +:+ "://" +:+ host +:+ "/r/" +:+ community +:+ "/comments/" +:+ rest)
             = Ok v' ->
    scraper_normalize_url
      (scheme +:+ "://" +:+ host +:+ "/r/" +:+ community +:+ "/comments/" +:+ rest) = v'
    /\ scraper_normalize_url v' = v'.
Proof.
  intros Hscheme Hhost Hne Hword Hrest v' Hv.
  rewrite (validate_thread_url scheme host community rest) in Hv by assumption.
  injection Hv as <-.
  destruct (thread_url_converted scheme host community rest Hscheme Hhost Hword Hrest)
    as [_ Hscraper].
  split; [exact Hscraper|].
  destruct (thread_url_converted scheme "old.reddit.com" community rest Hscheme
              (or_intror (or_intror eq_refl)) Hword Hrest) as [_ Hagain].
  cbv zeta in Hagain.
  destruct Hscheme as [-> | ->]; exact Hagain.
Qed.

(** ** The fetch URL *)

Lemma rstrip_slash_spec (s : string) :
  ends_with_slash (rstrip_slash s) = false
  /\ exists n, s = rstrip_slash s +:+ repeat_text "/" n.
Proof.
  induction s as [|c s [IHend [n IHn] ] ]; [split; [reflexivity | now exists 0]|].
  cbn [rstrip_slash].
  destruct (Ascii.eqb_spec c "/") as [->|Hc]; simpl andb.
  - destruct (String.eqb_spec (rstrip_slash s) "") as [Hempty|Hne].
    + split; [reflexivity|]. exists (S n). rewrite append_nil_l.
      rewrite Hempty, append_nil_l in IHn. rewrite IHn at 1. reflexivity.
    + split.
      * destruct (rstrip_slash s) as [|c' r]; [contradiction | exact IHend].
      * exists n. rewrite append_cons. now rewrite <- IHn.
  - split.
    + destruct (rstrip_slash s) as [|c' r]; [|exact IHend].
      simpl. now apply Ascii.eqb_neq.
    + exists n. rewrite append_cons. now rewrite <- IHn.
Qed.

(** X15.  The fetch URL is the URL without the slashes at its end,
    followed by [.json?limit=500]: there is never a slash right before the
    suffix. *)
Theorem json_url_drops_trailing_slashes (url : string) :
  exists base n,
    url = base +:+ repeat_text "/" n
    /\ ends_with_slash base = false
    /\ json_url url = base +:+ ".json?limit=500".
Proof.
  destruct (rstrip_slash_spec url) as [Hend [n Hn] ].
  exists (rstrip_slash url), n. now repeat split.
Qed.

(** ** What the endpoint does *)

Section EndpointFacts.

Variable python_exe : string.
Variable subprocess_run : list string -> Completed + string.
Variable json_loads : string -> (json * list CommentNode) + string.

Abbreviation serve := (post_scrape python_exe subprocess_run json_loads).

(** X16.  A request makes the endpoint start the scraper at most once, and
    only on a URL of the documented form: either the URL is refused and
    nothing is called, or the one call is the scraper module on the converted
    URL. *)
Theorem endpoint_starts_scraper_at_most_once (url : string) :
  (fst (serve url) = []
   /\ snd (serve url) = Unprocessable (ValueError invalid_url_message)
   /\ ~ thread_url (normalize_url url))
  \/ (fst (serve url)
      = [Subprocess [python_exe; "-m"; "reddit_scraper.scraper"; normalize_url url] ]
      /\ thread_url (normalize_url url)).
Proof.
  unfold post_scrape, validate_reddit_url.
  destruct (re_match reddit_url_pattern (normalize_url url)) eqn:Hm; simpl.
  - right. split; [reflexivity|]. now apply reddit_url_pattern_spec.
  - left. repeat split. intros H. apply reddit_url_pattern_spec in H. congruence.
Qed.

Lemma serve_scraped_inv url events u post comments stats :
  serve url = (events, Scraped u post comments stats) ->
  exists result,
    validate_reddit_url url = Ok u
    /\ subprocess_run [python_exe; "-m"; "reddit_scraper.scraper"; u] = inl result
    /\ returncode result = 0%Z
    /\ json_loads (stdout result) = inl (post, comments)
    /\ stats = {| total_comments := fst (count_comments_recursive comments 0 fresh_stats);
                  top_level_comments := length comments;
                  stats_max_depth :=
                    max_depth (snd (count_comments_recursive comments 0 fresh_stats));
                  comments_by_depth :=
                    by_depth (snd (count_comments_recursive comments 0 fresh_stats)) |}.
Proof.
  unfold post_scrape.
  destruct (validate_reddit_url url) as [v|e]; [|discriminate].
  unfold scrape_reddit, failed.
  destruct (subprocess_run _) as [result|msg] eqn:Hrun; [|discriminate].
  destruct (Z.eqb_spec (returncode result) 0) as [Hrc|Hrc]; simpl negb; cbv iota;
    [|discriminate].
  destruct (json_loads (stdout result)) as [ [p c]|msg] eqn:Hloads; [|discriminate].
  intros [= <- <- <- <- <-]. exists result. repeat split; assumption.
Qed.

(** X17.  A successful response echoes the converted URL, not the one that
    was sent, and its statistics describe the comments it carries: the total is
    their number, [top_level_comments] the length of the forest, [max_depth]
    the depth of the deepest comment and [comments_by_depth] the number of
    comments at each depth. *)
Theorem scraped_response_describes_its_comments url events u post comments stats :
  serve url = (events, Scraped u post comments stats) ->
  u = normalize_url url
  /\ total_comments stats = count_all comments
  /\ top_level_comments stats = length comments
  /\ top_level_comments stats <= total_comments stats
  /\ stats_max_depth stats = max_nesting comments
  /\ forall depth,
       comments_by_depth stats !! depth
       = match nodes_at depth comments with
         | O => None
         | S n => Some (S n)
         end.
Proof.
  intros Hserve.
  apply serve_scraped_inv in Hserve as (result & Hv & _ & _ & _ & ->).
  simpl.
  destruct (levels_loop _ (levels_ok_all comments) 0 (0, fresh_stats)) as [Hkeys Hmax].
  unfold count_comments_recursive. rewrite count_loop_total. simpl fst.
  repeat split.
  - unfold validate_reddit_url in Hv.
    destruct (re_match _ _); simpl in Hv; congruence.
  - apply count_all_length.
  - rewrite Hmax. unfold reach. simpl. destruct comments; reflexivity.
  - intros depth. rewrite Hkeys. simpl snd. simpl by_depth. rewrite lookup_empty.
    unfold level_count. simpl. rewrite Nat.sub_0_r.
    destruct (nodes_at depth comments); reflexivity.
Qed.


End EndpointFacts.

(** ** The printed tree *)

Section PrinterFacts.

Variable str_of_nontext : json -> string.
Variable bullet : string.
Variable branch : string.

Abbreviation print_node := (print_comment str_of_nontext bullet branch).
Abbreviation print_tree := (print_comment_tree str_of_nontext bullet branch).





End PrinterFacts.

(** ** The whole scrape *)


Section ScrapeFacts.

Variable str_of_nontext : json -> string.


End ScrapeFacts.

(** ** The walk on statistics that are already filled *)

(** X21.  Started at any depth on any [stats] dict, the walk adds to what
    is there: the count under [depth + d] grows by the number of nodes [d]
    levels down the forest, the keys below [depth] and those of levels
    without nodes are left as they are, and ['max_depth'] never goes down. *)
Theorem walk_adds_to_given_stats (comments : list CommentNode) (depth : nat)
    (stats : Stats) (key : nat) :
  let after := snd (count_comments_recursive comments depth stats) in
  (key < depth -> by_depth after !! key = by_depth stats !! key)
  /\ (depth <= key -> nodes_at (key - depth) comments = 0 ->
      by_depth after !! key = by_depth stats !! key)
  /\ (depth <= key -> nodes_at (key - depth) comments <> 0 ->
      by_depth after !! key
      = Some (default 0 (by_depth stats !! key) + nodes_at (key - depth) comments))
  /\ max_depth stats <= max_depth after
  /\ (comments <> [] -> max_depth after
                        = Nat.max (max_depth stats) (depth + max_nesting comments)).
Proof.
  cbv zeta. unfold count_comments_recursive.
  destruct (levels_loop _ (levels_ok_all comments) depth (0, stats)) as [Hkeys Hmax].
  rewrite Hkeys, Hmax. simpl snd. unfold level_count.
  repeat split.
  - intros Hlt. apply Nat.ltb_lt in Hlt. now rewrite Hlt.
  - intros Hle Hzero. destruct (Nat.ltb_spec key depth); [reflexivity|].
    now rewrite Hzero.
  - intros Hle Hpos. destruct (Nat.ltb_spec key depth); [lia|].
    destruct (nodes_at (key - depth) comments); [contradiction | reflexivity].
  - lia.
  - intros Hne. destruct comments; [contradiction | reflexivity].
Qed.

(** ** More examples *)

Example example_json_url :
  json_url "https://old.reddit.com/r/python/comments/abc123/title//"
  = "https://old.reddit.com/r/python/comments/abc123/title.json?limit=500".
Proof. reflexivity. Qed.

Example example_scraper_normalize :
  scraper_normalize_url "https://www.reddit.com/r/python/comments/abc123/"
  = "https://old.reddit.com/r/python/comments/abc123/".
Proof. reflexivity. Qed.

(** The two conversions part ways when "reddit.com" occurs again after the
    host. *)
Example example_conversions_differ :
  normalize_url "https://www.reddit.com/r/a/comments/x?u=reddit.com"
  = "https://old.reddit.com/r/a/comments/x?u=old.reddit.com"
  /\ scraper_normalize_url "https://www.reddit.com/r/a/comments/x?u=reddit.com"
     = "https://old.reddit.com/r/a/comments/x?u=reddit.com".
Proof. split; reflexivity. Qed.

Example example_scrape :
  scrape_reddit_post Example.str_other "https://old.reddit.com/r/python/comments/abc123"
    Sample.response
  = Ok {| r_post :=
            {| p_title := JStr "A thread"; p_author := JStr "alice";
               p_subreddit := JStr "python"; p_timestamp := JInt 0; p_score := JInt 0;
               p_url := "https://old.reddit.com/r/python/comments/abc123";
               p_num_comments := JInt 2; p_selftext := JStr "" |};
          r_comments := [Example.node_a] |}.
Proof. reflexivity. Qed.

Example example_print :
  print_comment_tree Example.str_other "* " "+- " [Example.node_a] 0
  = ["* bob (? points)"; "  +- [deleted] (Mod) (? points)"].
Proof. reflexivity. Qed.

Example example_walk_decoded :
  count_comments_recursive_json (forest_json [Example.node_a]) 0 fresh_stats
  = Ok (2, {| max_depth := 1; by_depth := <[1 := 1]> {[0 := 1]} |}).
Proof. vm_compute. reflexivity. Qed.

Lemma example_entries_documented :
  Forall listing_entry [JObj Example.entry_a; JObj Example.entry_more].
Proof.
  constructor; [|constructor; [|constructor] ].
  - apply (entry_nested Example.entry_a Example.fields_a
             [("data", JObj [("children", JArr [JObj Example.entry_b])])]
             [("children", JArr [JObj Example.entry_b])] [JObj Example.entry_b]);
      try reflexivity.
    constructor; [|constructor].
    apply (entry_leaf Example.entry_b Example.fields_b); try reflexivity.
    left. reflexivity.
  - apply (entry_other Example.entry_more (JStr "more")); [reflexivity | discriminate].
Qed.

(** ** The further theorems at work on the examples *)

Lemma forest_has_one_node_per_comment_entry_witness :
  length [Example.node_a]
  = comment_entries [JObj Example.entry_more; JObj Example.entry_a].
Proof.
  apply (forest_has_one_node_per_comment_entry Example.str_other). reflexivity.
Defined.

Lemma documented_listing_builds_witness :
  exists nodes,
    build_forest (parse_comment Example.str_other)
      [JObj Example.entry_a; JObj Example.entry_more] = Ok nodes
    /\ length nodes = comment_entries [JObj Example.entry_a; JObj Example.entry_more].
Proof.
  apply (documented_listing_builds Example.str_other). exact example_entries_documented.
Defined.

Lemma unreadable_entries_raise_witness :
  parse_comment Example.str_other (JStr "t1_abc") = Raise TypeError
  /\ parse_comment Example.str_other (JObj [("data", JObj [])]) = Raise KeyError
  /\ parse_comment Example.str_other (JObj [("kind", JStr "t1")]) = Raise KeyError
  /\ parse_comment Example.str_other (JObj [("kind", JStr "t1"); ("data", JNull)])
     = Raise AttributeError.
Proof.
  destruct (unreadable_entries_raise Example.str_other) as (Hty & Hkind & Hdata & Hattr).
  split; [apply Hty; reflexivity|].
  split; [apply Hkind; reflexivity|].
  split; [apply Hdata; reflexivity|].
  apply (Hattr _ JNull); reflexivity.
Defined.

Lemma first_unreadable_entry_fails_the_forest_witness :
  build_forest (parse_comment Example.str_other)
    ([JObj Example.entry_more] ++ JStr "t1_abc" :: [JObj Example.entry_a])
  = Raise TypeError.
Proof.
  apply (first_unreadable_entry_fails_the_forest Example.str_other
           [JObj Example.entry_more] (JStr "t1_abc") [JObj Example.entry_a] TypeError).
  - intros x [<-|[] ]. now exists None.
  - reflexivity.
Defined.

Lemma url_without_reddit_is_refused_witness :
  validate_reddit_url "http://example.com/r/python/comments/abc123/"
  = Raise (ValueError invalid_url_message).
Proof. apply url_without_reddit_is_refused. reflexivity. Defined.

Lemma thread_url_is_accepted_witness :
  validate_reddit_url
    ("https" +:+ "://" +:+ "www.reddit.com" +:+ "/r/" +:+ "python" +:+ "/comments/"
     +:+ "abc123/a_title/")
  = Ok ("https" +:+ "://old.reddit.com/r/" +:+ "python" +:+ "/comments/"
        +:+ "abc123/a_title/").
Proof.
  apply thread_url_is_accepted.
  - now right.
  - now left.
  - discriminate.
  - reflexivity.
  - reflexivity.
Defined.

Lemma scraper_converts_like_the_validator_witness :
  scraper_normalize_url
    ("http" +:+ "://" +:+ "reddit.com" +:+ "/r/" +:+ "python" +:+ "/comments/" +:+ "abc123")
  = "http://old.reddit.com/r/python/comments/abc123"
  /\ scraper_normalize_url "http://old.reddit.com/r/python/comments/abc123"
     = "http://old.reddit.com/r/python/comments/abc123".
Proof.
  apply (scraper_converts_like_the_validator "http" "reddit.com" "python" "abc123").
  - now left.
  - right. now left.
  - discriminate.
  - reflexivity.
  - reflexivity.
  - reflexivity.
Defined.

Lemma scraped_response_describes_its_comments_witness :
  "https://old.reddit.com/r/python/comments/abc123/"
  = normalize_url "https://www.reddit.com/r/python/comments/abc123/"
  /\ total_comments
       match snd (post_scrape "python3" Sample.good_process Sample.good_output
                    "https://www.reddit.com/r/python/comments/abc123/") with
       | Scraped _ _ _ stats => stats
       | _ => MkResponseStats 0 0 0 ∅
       end
     = count_all [Example.node_a].
Proof.
  destruct (scraped_response_describes_its_comments "python3" Sample.good_process
              Sample.good_output "https://www.reddit.com/r/python/comments/abc123/"
              _ _ _ _ _ eq_refl) as (Hu & Htotal & _).
  split; [exact Hu | exact Htotal].
Defined.

